(** * SSL certificate checker: the engine of [app/services/ssl_checker.py]
      and the batch branch of [app/agents/simple_ai_agent.py]

    The Python code is embedded shallowly.  Network access, the system
    clock and the [cryptography] DER parser are the only things the code
    does not define itself; they are the fields of the class [Runtime].
    Everything the repository's own code computes on top of them
    (exception handling, common-name search, expiry arithmetic, warning
    texts, serial rendering, batch assembly) is written out below. *)

From Stdlib Require Import ZArith List String Ascii Bool Lia.
From Stdlib Require DecimalString HexadecimalString.
Import ListNotations.

Local Open Scope string_scope.
Local Open Scope Z_scope.

(** ** Python built-ins used by the code *)

Module Py.

  (** [str(n)] / the [{n}] of an f-string, for an [int]. *)
Definition str_of_int (n : Z) : string :=
    DecimalString.NilZero.string_of_int (Z.to_int n).

  (** [hex(n)]: sign, the prefix [0x], lowercase digits. *)
Definition hex (n : Z) : string :=
    (if n <? 0 then "-" else "") ++ "0x" ++
    HexadecimalString.NilZero.string_of_uint (N.to_hex_uint (Z.abs_N n)).

  (** [s[:n]]: the first [n] characters, all of [s] when it is shorter. *)
Definition slice_to (n : nat) (s : string) : string := substring 0 n s.

  (** [xs.append(x)], as the new value of [xs] *)
Definition append {A} (xs : list A) (x : A) : list A := (xs ++ [x])%list.

  (** [len(xs)] *)
Definition len {A} (xs : list A) : Z := Z.of_nat (List.length xs).

End Py.

(** ** Exceptions *)

(** The classes the [except] clauses of [check_certificate] tell apart.
    Values of [exn] stand for instances of Python's [Exception]; the
    class recorded is the most specific one among those named in the
    code, [OtherException] for everything else ([ValueError] from the
    DER parser, [ConnectionRefusedError], [AttributeError], ...). *)
Inductive ExnClass : Type :=
| SocketTimeout      (* socket.timeout *)
| SocketGaierror     (* socket.gaierror *)
| SSLError           (* ssl.SSLError and its subclasses *)
| OtherException.

Record exn : Type := MkExn { exn_class : ExnClass; exn_str : string }.

(** The class expressions that appear after [except]. *)
Inductive ExceptClause : Type :=
| except_socket_timeout
| except_socket_gaierror
| except_ssl_SSLError
| except_Exception.

Definition isinstance (e : exn) (c : ExceptClause) : bool :=
  match c, exn_class e with
  | except_socket_timeout, SocketTimeout => true
  | except_socket_gaierror, SocketGaierror => true
  | except_ssl_SSLError, SSLError => true
  | except_Exception, _ => true
  | _, _ => false
  end.

Inductive Exc (A : Type) : Type :=
| Returned (a : A)
| Raised (e : exn).
Arguments Returned {A} a.
Arguments Raised {A} e.

(** ** Data model ([app/models/ssl_models.py]) *)

(** A [datetime], as microseconds on the UTC time line.  Subtraction of
    two of them is a [timedelta]; its [.days] is the floor of the
    quotient by one day (Python normalises a negative [timedelta] to a
    negative [days] and non-negative [seconds] and [microseconds]). *)
Definition datetime := Z.
Definition timedelta := Z.

Definition MICROSECONDS_PER_DAY : Z := 86400 * 1000000.

Definition timedelta_days (d : timedelta) : Z := d / MICROSECONDS_PER_DAY.

Definition bytes := list Byte.byte.

Record SSLCertificate : Type := {
  domain : string;
  isValid : bool;
  issuer : string;
  subject : string;
  notBefore : datetime;
  notAfter : datetime;
  daysUntilExpiry : Z;
  isExpired : bool;
  isExpiringSoon : bool;
  keySize : Z;
  signatureAlgorithm : string;
  sanList : list string;
  serialNumber : string
}.

Record SSLCheckResult : Type := {
  res_domain : string;
  success : bool;
  certificate : option SSLCertificate;
  error : option string;
  checkedAt : datetime;
  warnings : list string
}.

(** ** What [cryptography.x509] hands back for a parsed certificate *)

Record NameAttribute : Type := { oid_name : string; attr_value : string }.

Inductive GeneralName : Type :=
| DNSName (value : string)
| OtherGeneralName (value : string).

Record X509 : Type := {
  x509_issuer : list NameAttribute;
  x509_subject : list NameAttribute;
  not_valid_before_utc : datetime;
  not_valid_after_utc : datetime;
  (** [cert.public_key().key_size]; key types without that attribute
      raise on access. *)
  public_key_size : Exc Z;
  (** the SAN extension, [None] for [x509.ExtensionNotFound] *)
  subject_alternative_name : option (list GeneralName);
  signature_algorithm_name : string;
  serial_number : Z
}.

(** ** The runtime the code runs against *)

Class Runtime : Type := {
  World : Type;
  (** [socket.create_connection] + [wrap_socket] + [getpeercert(binary_form=True)]
      for (domain, port, timeout) *)
  tls_peer_certificate : string -> Z -> Z -> World -> Exc bytes * World;
  (** [x509.load_der_x509_certificate] *)
  load_der_x509_certificate : bytes -> Exc X509;
  (** [datetime.now(tz)] / [datetime.utcnow()] *)
  datetime_now : World -> datetime * World;
  (** [dt.strftime('%Y-%m-%d')] and [dt.isoformat()] *)
  strftime_ymd : datetime -> string;
  isoformat : datetime -> string
}.

(** ** Computations: world passing with exceptions *)

Section Effects.
Context {rt : Runtime}.

Definition M (A : Type) : Type := World -> Exc A * World.

Definition ret {A} (a : A) : M A := fun w => (Returned a, w).

Definition raise {A} (e : exn) : M A := fun w => (Raised e, w).

Definition bind {A B} (m : M A) (k : A -> M B) : M B :=
    fun w =>
      match m w with
      | (Returned a, w') => k a w'
      | (Raised e, w') => (Raised e, w')
      end.

Definition lift {A} (r : Exc A) : M A := fun w => (r, w).

Definition now : M datetime :=
    fun w => let (t, w') := datetime_now w in (Returned t, w').

  (** [try: body  except C1: h1  except C2: h2 ...]: the first clause
      whose class the exception is an instance of handles it; with no
      such clause the exception propagates. *)
Fixpoint dispatch {A} (handlers : list (ExceptClause * (exn -> M A)))
         (e : exn) : M A :=
    match handlers with
    | [] => raise e
    | (c, h) :: rest => if isinstance e c then h e else dispatch rest e
    end.

Definition try_except {A} (body : M A)
             (handlers : list (ExceptClause * (exn -> M A))) : M A :=
    fun w =>
      match body w with
      | (Returned a, w') => (Returned a, w')
      | (Raised e, w') => dispatch handlers e w'
      end.

End Effects.

Declare Scope py_scope.
Delimit Scope py_scope with py.
Notation "x <- m ;; k" := (bind m (fun x => k))
  (at level 61, m at next level, right associativity) : py_scope.
Local Open Scope py_scope.

(** ** [SSLCheckerService] ([app/services/ssl_checker.py]) *)

Record SSLCheckerService : Type := {
  timeout : Z;
  warning_days : Z
}.

(** [SSLCheckerService()] with the defaults of [__init__]. *)
Definition default_service : SSLCheckerService :=
  {| timeout := 10; warning_days := 30 |}.

(** The loop
[[
    cn = default
    for attr in name:
        if attr.oid._name == "commonName":
            cn = attr.value
            break
]]
    as a function of the attributes still to visit. *)
Fixpoint common_name_loop (attrs : list NameAttribute) (cn : string) : string :=
  match attrs with
  | [] => cn
  | attr :: rest =>
      if String.eqb (oid_name attr) "commonName"
      then attr_value attr
      else common_name_loop rest cn
  end.

(** [[dns.value for dns in san_ext.value if isinstance(dns, x509.DNSName)]] *)
Fixpoint dns_values (names : list GeneralName) : list string :=
  match names with
  | [] => []
  | DNSName v :: rest => v :: dns_values rest
  | OtherGeneralName _ :: rest => dns_values rest
  end.

(** The constructor [SSLCheckResult(...)]: [checkedAt] is filled by its
    default factory [datetime.utcnow], a clock reading at construction. *)
Definition new_SSLCheckResult {rt : Runtime} (d : string) (ok : bool)
  (c : option SSLCertificate) (err : option string) (ws : list string)
  : M SSLCheckResult :=
  t <- now ;;
  ret {| res_domain := d; success := ok; certificate := c; error := err;
         checkedAt := t; warnings := ws |}.

Section Service.
Context {rt : Runtime}.
Variable self : SSLCheckerService.

Definition _get_certificate (domain : string) (port : Z) : M bytes :=
  tls_peer_certificate domain port (timeout self).

Definition _parse_certificate (cert_der : bytes) (domain : string)
  : M SSLCertificate :=
  cert <- lift (load_der_x509_certificate cert_der) ;;
  let issuer_cn := common_name_loop (x509_issuer cert) "Unknown" in
  let subject_cn := common_name_loop (x509_subject cert) domain in
  let not_before := not_valid_before_utc cert in
  let not_after := not_valid_after_utc cert in
  now_ <- now ;;
  let days_until_expiry := timedelta_days (not_after - now_) in
  let is_expired := now_ >? not_after in
  let is_expiring_soon :=
    (0 <? days_until_expiry) && (days_until_expiry <=? warning_days self) in
  key_size <- lift (public_key_size cert) ;;
  let san_list :=
    match subject_alternative_name cert with
    | Some san_ext => dns_values san_ext
    | None => []
    end in
  ret {| domain := domain;
         isValid := negb is_expired;
         issuer := issuer_cn;
         subject := subject_cn;
         notBefore := not_before;
         notAfter := not_after;
         daysUntilExpiry := days_until_expiry;
         isExpired := is_expired;
         isExpiringSoon := is_expiring_soon;
         keySize := key_size;
         signatureAlgorithm := signature_algorithm_name cert;
         sanList := san_list;
         serialNumber := Py.slice_to 16 (Py.hex (serial_number cert)) |}.

Definition WEAK_KEY_WARNING : string := "⚠️ Weak key size (< 2048 bits)".

Definition _generate_warnings (cert : SSLCertificate) : list string :=
  let warnings := [] in
  let warnings :=
    if isExpired cert then
      Py.append warnings
        ("⚠️ Certificate EXPIRED "
         ++ Py.str_of_int (Z.abs (daysUntilExpiry cert)) ++ " days ago")
    else if daysUntilExpiry cert <=? 7 then
      Py.append warnings
        ("🚨 Certificate expires in "
         ++ Py.str_of_int (daysUntilExpiry cert) ++ " days (CRITICAL)")
    else if isExpiringSoon cert then
      Py.append warnings
        ("⚠️ Certificate expires in "
         ++ Py.str_of_int (daysUntilExpiry cert) ++ " days")
    else warnings in
  let warnings :=
    if keySize cert <? 2048
    then Py.append warnings WEAK_KEY_WARNING
    else warnings in
  warnings.

Definition check_certificate (domain : string) (port : Z) : M SSLCheckResult :=
  try_except
    (cert_der <- _get_certificate domain port ;;
     certificate <- _parse_certificate cert_der domain ;;
     let warnings := _generate_warnings certificate in
     new_SSLCheckResult domain true (Some certificate) None warnings)
    [ (except_socket_timeout, fun _ =>
         new_SSLCheckResult domain false None (Some "Connection timeout") []);
      (except_socket_gaierror, fun _ =>
         new_SSLCheckResult domain false None
           (Some "Domain not found (DNS error)") []);
      (except_ssl_SSLError, fun e =>
         new_SSLCheckResult domain false None
           (Some ("SSL error: " ++ exn_str e)) []);
      (except_Exception, fun e =>
         new_SSLCheckResult domain false None
           (Some ("Unexpected error: " ++ exn_str e)) []) ].

(** *** Function bodies with [return]

    A statement either completes normally or executes [return v].  The
    rest of a body after a statement that returned is not run; a body
    that runs off its end yields [None]. *)

Inductive Completion (A : Type) : Type :=
| Normal
| ReturnValue (a : A).
Arguments Normal {A}.
Arguments ReturnValue {A} a.

Definition Stmt (A : Type) : Type := M (Completion A).

Definition return_ {A} (e : M A) : Stmt A :=
  a <- e ;; ret (ReturnValue a).

Definition expression_statement {A B} (e : M B) : Stmt A :=
  _ <- e ;; ret Normal.

Definition seq {A} (s1 s2 : Stmt A) : Stmt A :=
  c <- s1 ;;
  match c with
  | Normal => s2
  | ReturnValue a => ret (ReturnValue a)
  end.

Definition call {A} (body : Stmt A) : M (option A) :=
  c <- body ;;
  ret (match c with Normal => None | ReturnValue a => Some a end).

(** [async def check_domain]: the value of awaiting the coroutine, that
    is, of running its body, which contains no [await].  The body is the
    [return] of line 42 followed by the statements of lines 43-63. *)
Definition check_domain (domain : string) (port : Z)
  : M (option SSLCheckResult) :=
  call
    (seq (return_ (check_certificate domain port))
    (seq (expression_statement (ret "Check SSL certificate for domain"))
         (try_except
            (return_
               (cert_der <- _get_certificate domain port ;;
                certificate <- _parse_certificate cert_der domain ;;
                let warnings := _generate_warnings certificate in
                new_SSLCheckResult domain true (Some certificate) None warnings))
            [ (except_socket_timeout, fun _ =>
                 return_ (new_SSLCheckResult domain false None
                            (Some "Connection timeout") []));
              (except_socket_gaierror, fun _ =>
                 return_ (new_SSLCheckResult domain false None
                            (Some "Domain not found (DNS error)") []));
              (except_ssl_SSLError, fun e =>
                 return_ (new_SSLCheckResult domain false None
                            (Some ("SSL error: " ++ exn_str e)) []));
              (except_Exception, fun e =>
                 return_ (new_SSLCheckResult domain false None
                            (Some ("Unexpected error: " ++ exn_str e)) [])) ]))).

End Service.

(** ** [SSLAgent._execute_function] ([app/agents/simple_ai_agent.py]) *)

(** The pair (function_name, arguments), with the argument types of the
    function declarations in [self.tools]; [domains] is optional because
    the code reads it with [arguments.get("domains", [])]. *)
Inductive FunctionCall : Type :=
| call_check_ssl_certificate (domain : string)
| call_check_multiple_domains (domains : option (list string))
| call_other (function_name : string).

(** The dictionaries appended to [results]. *)
Inductive DomainSummary : Type :=
| CheckedSummary (domain status : string) (days_remaining : Z) (expires : string)
| ErrorSummary (domain status : string) (error : option string).

Definition summary_domain (s : DomainSummary) : string :=
  match s with
  | CheckedSummary d _ _ _ => d
  | ErrorSummary d _ _ => d
  end.

Record CertificateDict : Type := {
  dict_issuer : string;
  dict_subject : string;
  valid_from : string;
  valid_until : string;
  days_until_expiry : Z;
  is_valid : bool;
  is_expiring_soon : bool
}.

(** The dictionaries [_execute_function] returns. *)
Inductive FunctionResult : Type :=
| SingleSuccess (success : bool) (domain : string)
    (certificate : CertificateDict) (message : string)
| SingleFailure (success : bool) (domain : string)
    (error : option string) (message : string)
| BatchResult (success : bool) (total_domains : Z)
    (results : list DomainSummary) (message : string)
| UnknownFunction (success : bool) (error : string).

(** Attribute access on [result.certificate] when it is [None]. *)
Definition NoneType_attribute_error (attr : string) : exn :=
  MkExn OtherException
    ("'NoneType' object has no attribute '" ++ attr ++ "'").

Section Agent.
Context {rt : Runtime}.

(** [self.ssl_checker = SSLCheckerService()] *)
Definition ssl_checker : SSLCheckerService := default_service.

(** One iteration of [for domain in domains:], from the list [results]
    before it to the list after it. *)
Definition summarize (domain : string) (result : SSLCheckResult)
  (results : list DomainSummary) : M (list DomainSummary) :=
  if success result then
    match certificate result with
    | Some c =>
        ret (Py.append results
               (CheckedSummary domain
                  (if isValid c then "✅ Valid" else "❌ Invalid")
                  (daysUntilExpiry c)
                  (strftime_ymd (notAfter c))))
    | None => raise (NoneType_attribute_error "isValid")
    end
  else
    ret (Py.append results (ErrorSummary domain "❌ Error" (error result))).

Fixpoint for_domain_in (domains : list string) (results : list DomainSummary)
  : M (list DomainSummary) :=
  match domains with
  | [] => ret results
  | domain :: rest =>
      result <- check_certificate ssl_checker domain 443 ;;
      results' <- summarize domain result results ;;
      for_domain_in rest results'
  end.

Definition check_multiple_domains (domains : list string) : M FunctionResult :=
  let results := [] in
  results <- for_domain_in domains results ;;
  ret (BatchResult true (Py.len domains) results
         ("Checked " ++ Py.str_of_int (Py.len domains) ++ " domain(s)")).

Definition check_ssl_certificate (domain : string) : M FunctionResult :=
  result <- check_certificate ssl_checker domain 443 ;;
  if success result then
    match certificate result with
    | Some c =>
        ret (SingleSuccess true domain
               {| dict_issuer := issuer c;
                  dict_subject := subject c;
                  valid_from := isoformat (notBefore c);
                  valid_until := isoformat (notAfter c);
                  days_until_expiry := daysUntilExpiry c;
                  is_valid := isValid c;
                  is_expiring_soon := isExpiringSoon c |}
               ("✅ SSL certificate for " ++ domain ++ " is valid until "
                ++ strftime_ymd (notAfter c) ++ " ("
                ++ Py.str_of_int (daysUntilExpiry c) ++ " days remaining)"))
    | None => raise (NoneType_attribute_error "issuer")
    end
  else
    ret (SingleFailure false domain (error result)
           ("❌ Failed to check SSL for " ++ domain ++ ": "
            ++ match error result with Some e => e | None => "None" end)).

Definition _execute_function (c : FunctionCall) : M FunctionResult :=
  match c with
  | call_check_ssl_certificate domain => check_ssl_certificate domain
  | call_check_multiple_domains domains =>
      check_multiple_domains (match domains with Some ds => ds | None => [] end)
  | call_other function_name =>
      ret (UnknownFunction false ("Unknown function: " ++ function_name))
  end.

End Agent.

(** ** A test double for the runtime

    The world is the clock; each reading advances it by one
    microsecond.  The DER bytes a host presents are stood in for by the
    bytes of its name, and the parser looks the certificate up in a
    table of hosts. *)

Definition stub_runtime (hosts : string -> Exc X509) : Runtime :=
  {| World := Z;
     tls_peer_certificate := fun domain _ _ w =>
       (match hosts domain with
        | Returned _ => Returned (list_byte_of_string domain)
        | Raised e => Raised e
        end, w);
     load_der_x509_certificate := fun der => hosts (string_of_list_byte der);
     datetime_now := fun w => (w, w + 1);
     strftime_ymd := fun t => "day " ++ Py.str_of_int (t / MICROSECONDS_PER_DAY);
     isoformat := fun t => "us " ++ Py.str_of_int t |}.

(** 2026-11-03T00:00:00Z *)
Definition t0 : datetime := 1793664000 * 1000000.

Definition HOUR : Z := 3600 * 1000000.

Definition sample_x509 (not_after : datetime) (key_bits : Z) : X509 :=
  {| x509_issuer :=
       [ {| oid_name := "countryName"; attr_value := "US" |};
         {| oid_name := "organizationName"; attr_value := "Example Trust" |};
         {| oid_name := "commonName"; attr_value := "Example CA R3" |} ];
     x509_subject := [ {| oid_name := "organizationName"; attr_value := "Example" |} ];
     not_valid_before_utc := t0 - 90 * MICROSECONDS_PER_DAY;
     not_valid_after_utc := not_after;
     public_key_size := Returned key_bits;
     subject_alternative_name :=
       Some [ DNSName "b.com"; OtherGeneralName "192.0.2.1"; DNSName "www.b.com" ];
     signature_algorithm_name := "sha256WithRSAEncryption";
     serial_number := 0x04e1b2c3d4a5968778695a4b3c2d1e0f1234 |}.

Definition sample_hosts (domain : string) : Exc X509 :=
  if String.eqb domain "a.com" then
    Raised (MkExn SocketGaierror "[Errno -2] Name or service not known")
  else if String.eqb domain "b.com" then
    Returned (sample_x509 (t0 + 60 * MICROSECONDS_PER_DAY) 2048)
  else if String.eqb domain "hour.example" then
    Returned (sample_x509 (t0 + HOUR) 2048)
  else if String.eqb domain "expired.example" then
    Returned (sample_x509 (t0 - HOUR) 1024)
  else if String.eqb domain "month.example" then
    Returned (sample_x509 (t0 + 30 * MICROSECONDS_PER_DAY + HOUR) 2048)
  else if String.eqb domain "month1.example" then
    Returned (sample_x509 (t0 + 31 * MICROSECONDS_PER_DAY + HOUR) 2048)
  else
    Raised (MkExn SocketTimeout "timed out").

Definition sample_runtime : Runtime := stub_runtime sample_hosts.

(** What the host [d] presents, and its evaluation at [t0] by the
    default service. *)
Definition sample_der (d : string) : bytes := list_byte_of_string d.

Definition sample_parse (d : string) : Exc SSLCertificate * Z :=
  _parse_certificate (rt:=sample_runtime) default_service (sample_der d) d t0.

(** How the [except] clauses of [check_certificate] word the error of a
    failed check, by the class of the exception caught. *)
Definition failure_text (e : exn) : string :=
  match exn_class e with
  | SocketTimeout => "Connection timeout"
  | SocketGaierror => "Domain not found (DNS error)"
  | SSLError => "SSL error: " ++ exn_str e
  | OtherException => "Unexpected error: " ++ exn_str e
  end.

(** [v] is the value of the first attribute of [attrs] named
    commonName, or [default] when [attrs] has no such attribute. *)
Definition first_common_name_or (attrs : list NameAttribute)
           (default v : string) : Prop :=
  (exists before a after,
      attrs = (before ++ a :: after)%list /\
      Forall (fun b => oid_name b <> "commonName") before /\
      oid_name a = "commonName" /\
      v = attr_value a)
  \/ (Forall (fun b => oid_name b <> "commonName") attrs /\ v = default).

(** The three texts [_generate_warnings] uses for the expiry state. *)
Definition is_expiry_warning (s : string) : bool :=
  prefix "⚠️ Certificate EXPIRED " s
  || prefix "🚨 Certificate expires in " s
  || prefix "⚠️ Certificate expires in " s.

(** What [check_certificate] returns, by the outcome of the fetch and of
    the parse. *)
Definition check_outcome {rt : Runtime} (self : SSLCheckerService) (d : string) (port : Z)
           (w : World) (r : SSLCheckResult) : Prop :=
  match _get_certificate self d port w with
  | (Raised e, _) =>
      success r = false /\ certificate r = None /\
      error r = Some (failure_text e) /\ warnings r = []
  | (Returned der, w1) =>
      match _parse_certificate self der d w1 with
      | (Raised e, _) =>
          success r = false /\ certificate r = None /\
          error r = Some (failure_text e) /\ warnings r = []
      | (Returned c, _) =>
          success r = true /\ certificate r = Some c /\
          error r = None /\ warnings r = _generate_warnings c
      end
  end.

(** [s] is the dictionary one loop iteration of the batch branch appends
    for the domain [d] whose check returned [r]. *)
Definition recorded_for {rt : Runtime} (d : string) (r : SSLCheckResult)
           (s : DomainSummary) : Prop :=
  forall (results : list DomainSummary) (w : World),
    summarize d r results w = (Returned (Py.append results s), w).

(** The per-domain facts of a batch: every summary carries its own
    domain and is the one recorded for a result [check_certificate]
    returned for that domain, on port 443. *)
Definition summaries_of {rt : Runtime} (domains : list string) (out : list DomainSummary)
  : Prop :=
  Forall2 (fun d s =>
             summary_domain s = d /\
             exists v r v',
               check_certificate ssl_checker d 443 v = (Returned r, v') /\
               recorded_for d r s)
          domains out.

(** ** Vocabulary for further properties of the engine and the agent *)

Definition is_DNSName (n : GeneralName) : bool :=
  match n with
  | DNSName _ => true
  | OtherGeneralName _ => false
  end.

(** The dictionary [check_ssl_certificate] builds from a failed check
    whose error text is [err], and from a check that produced [c]. *)
Definition single_failure {rt : Runtime} (d err : string) : FunctionResult :=
  SingleFailure false d (Some err)
    ("❌ Failed to check SSL for " ++ d ++ ": " ++ err).

Definition single_success {rt : Runtime} (d : string) (c : SSLCertificate)
  : FunctionResult :=
  SingleSuccess true d
    {| dict_issuer := issuer c;
       dict_subject := subject c;
       valid_from := isoformat (notBefore c);
       valid_until := isoformat (notAfter c);
       days_until_expiry := daysUntilExpiry c;
       is_valid := isValid c;
       is_expiring_soon := isExpiringSoon c |}
    ("✅ SSL certificate for " ++ d ++ " is valid until "
     ++ strftime_ymd (notAfter c) ++ " ("
     ++ Py.str_of_int (daysUntilExpiry c) ++ " days remaining)").

(** The outcome of the two stages of a check of [d] on port 443 by the
    agent's service, started in world [w]: the exception of the stage
    that raised, or the certificate. *)
Definition stages {rt : Runtime} (d : string) (w : World)
  : Exc SSLCertificate :=
  match _get_certificate ssl_checker d 443 w with
  | (Raised e, _) => Raised e
  | (Returned der, w1) => fst (_parse_certificate ssl_checker der d w1)
  end.

(** The summary the batch records for a domain, by that outcome. *)
Definition summary_for {rt : Runtime} (d : string) (o : Exc SSLCertificate)
  : DomainSummary :=
  match o with
  | Raised e => ErrorSummary d "❌ Error" (Some (failure_text e))
  | Returned c =>
      CheckedSummary d
        (if daysUntilExpiry c <? 0 then "❌ Invalid" else "✅ Valid")
        (daysUntilExpiry c) (strftime_ymd (notAfter c))
  end.

(** The world a check of [d] by the agent's service leaves. *)
Definition world_after_check {rt : Runtime} (d : string) (w : World) : World :=
  snd (check_certificate ssl_checker d 443 w).

(** The summaries of a batch started in [w], each check starting in the
    world the one before it left. *)
Fixpoint summaries_from {rt : Runtime} (domains : list string) (w : World)
  : list DomainSummary :=
  match domains with
  | [] => []
  | d :: rest =>
      summary_for d (stages d w) :: summaries_from rest (world_after_check d w)
  end.

Fixpoint world_after_batch {rt : Runtime} (domains : list string) (w : World)
  : World :=
  match domains with
  | [] => w
  | d :: rest => world_after_batch rest (world_after_check d w)
  end.

(** ** Error responses ([app/models/error_models.py]) *)

Module ErrorModels.

Inductive A2AErrorCode : Type :=
| PARSE_ERROR
| INVALID_REQUEST
| METHOD_NOT_FOUND
| INVALID_PARAMS
| INTERNAL_ERROR
| SSL_CONNECTION_ERROR
| SSL_CERTIFICATE_ERROR
| DOMAIN_NOT_FOUND
| TIMEOUT_ERROR
| INVALID_DOMAIN.

(** [code.value] *)
Definition value (c : A2AErrorCode) : Z :=
  match c with
  | PARSE_ERROR => -32700
  | INVALID_REQUEST => -32600
  | METHOD_NOT_FOUND => -32601
  | INVALID_PARAMS => -32602
  | INTERNAL_ERROR => -32603
  | SSL_CONNECTION_ERROR => -32001
  | SSL_CERTIFICATE_ERROR => -32002
  | DOMAIN_NOT_FOUND => -32003
  | TIMEOUT_ERROR => -32004
  | INVALID_DOMAIN => -32005
  end.

(** The values the helpers put into a [data] dictionary. *)
Inductive DataValue : Type :=
| DataStr (s : string)
| DataInt (n : Z).

Definition Data : Type := list (string * DataValue).

Record ErrorDict : Type := {
  code : Z;
  message : string;
  data : Data
}.

Record ResponseDict : Type := {
  jsonrpc : string;
  id : option string;
  error : ErrorDict
}.

(** [data or {}] *)
Definition or_empty (data : option Data) : Data :=
  match data with
  | Some (entry :: rest) => entry :: rest
  | Some [] => []
  | None => []
  end.

Definition create_error_response (request_id : option string)
  (code : A2AErrorCode) (message : string) (data : option Data) : ResponseDict :=
  {| jsonrpc := "2.0";
     id := request_id;
     error := {| code := value code;
                 message := message;
                 data := or_empty data |} |}.

Definition create_parse_error (request_id : option string) : ResponseDict :=
  create_error_response request_id PARSE_ERROR
    "Parse error: Invalid JSON was received" None.

Definition create_invalid_request_error (request_id : option string)
  (details : string) : ResponseDict :=
  let message := "Invalid Request: The JSON sent is not a valid Request object" in
  let message :=
    if String.eqb details "" then message else message ++ " - " ++ details in
  create_error_response request_id INVALID_REQUEST message None.

Definition create_method_not_found_error (request_id : string)
  (method : string) : ResponseDict :=
  create_error_response (Some request_id) METHOD_NOT_FOUND
    ("Method not found: '" ++ method ++ "' is not a valid method")
    (Some [("method", DataStr method)]).

Definition create_invalid_params_error (request_id : string)
  (details : string) : ResponseDict :=
  create_error_response (Some request_id) INVALID_PARAMS
    ("Invalid params: " ++ details) None.

Definition create_internal_error (request_id : string) (details : string)
  : ResponseDict :=
  let message := "Internal error" in
  let message :=
    if String.eqb details "" then message else message ++ ": " ++ details in
  create_error_response (Some request_id) INTERNAL_ERROR message None.

Definition create_ssl_connection_error (request_id : string)
  (domain : string) (details : string) : ResponseDict :=
  let message := "SSL connection error for domain '" ++ domain ++ "'" in
  let message :=
    if String.eqb details "" then message else message ++ ": " ++ details in
  create_error_response (Some request_id) SSL_CONNECTION_ERROR message
    (Some [("domain", DataStr domain); ("details", DataStr details)]).

Definition create_domain_not_found_error (request_id : string)
  (domain : string) : ResponseDict :=
  create_error_response (Some request_id) DOMAIN_NOT_FOUND
    ("Domain not found: '" ++ domain ++ "' could not be resolved (DNS error)")
    (Some [("domain", DataStr domain)]).

Definition create_timeout_error (request_id : string) (domain : string)
  (timeout_seconds : Z) : ResponseDict :=
  create_error_response (Some request_id) TIMEOUT_ERROR
    ("Connection timeout: '" ++ domain ++ "' did not respond within "
     ++ Py.str_of_int timeout_seconds ++ " seconds")
    (Some [("domain", DataStr domain); ("timeout", DataInt timeout_seconds)]).

Definition create_invalid_domain_error (request_id : string)
  (domain : string) (reason : string) : ResponseDict :=
  let message := "Invalid domain: '" ++ domain ++ "'" in
  let message :=
    if String.eqb reason "" then message else message ++ " - " ++ reason in
  create_error_response (Some request_id) INVALID_DOMAIN message
    (Some [("domain", DataStr domain); ("reason", DataStr reason)]).

End ErrorModels.

(** ** JSON values, as the request carries them *)

#[local] Set Warnings "-register-all".

Inductive JSON : Type :=
| JNull
| JBool (b : bool)
| JInt (n : Z)
| JFloat (literal : string)
| JStr (s : string)
| JList (items : list JSON)
| JDict (entries : list (string * JSON)).

Definition type_name (v : JSON) : string :=
  match v with
  | JNull => "NoneType"
  | JBool _ => "bool"
  | JInt _ => "int"
  | JFloat _ => "float"
  | JStr _ => "str"
  | JList _ => "list"
  | JDict _ => "dict"
  end.

Fixpoint lookup (key : string) (entries : list (string * JSON)) : option JSON :=
  match entries with
  | [] => None
  | (k, v) :: rest => if String.eqb k key then Some v else lookup key rest
  end.

(** [msg.get(key, default)]: a dictionary answers, any other value has
    no attribute [get]. *)
Definition get (msg : JSON) (key : string) (default : JSON) : Exc JSON :=
  match msg with
  | JDict entries =>
      Returned (match lookup key entries with
                | Some v => v
                | None => default
                end)
  | _ =>
      Raised (MkExn OtherException
                ("'" ++ type_name msg ++ "' object has no attribute 'get'"))
  end.

(** ** The Gemini client, as [process_message] uses it *)

Module GenAI.

(** An element of [contents]: [{"role": role, "parts": [{"text": text}]}]
    or the user-role element that carries a [function_response]. *)
Inductive ContentDict : Type :=
| TextContent (role : JSON) (text : JSON)
| FunctionResponseContent (name : string) (result : FunctionResult).

(** A part of a response; [function_call] is [None] for a text part. *)
Record Part : Type := { function_call : option FunctionCall }.

Record Content : Type := { parts : option (list Part) }.

Record Candidate : Type := { content : option Content }.

Record GenerateContentResponse (U : Type) : Type := {
  candidates : list Candidate;
  text : option string;
  usage_metadata : U
}.
Arguments candidates {U} _.
Arguments text {U} _.
Arguments usage_metadata {U} _.

End GenAI.

(** ** What the agent and the route need beyond the engine's runtime *)

Class Platform {rt : Runtime} : Type := {
  Usage : Type;
  (** [client.models.generate_content(model=, contents=, config=)];
      the flag tells whether the tools configuration is passed *)
  generate_content :
    string -> list GenAI.ContentDict -> bool ->
    M (GenAI.GenerateContentResponse Usage);
  (** [str(uuid.uuid4())] *)
  uuid4 : World -> string * World;
  (** [str(HTTPException(status_code=, detail=))] *)
  HTTPException_str : Z -> string -> string
}.

(** ** [SSLAgent.process_message] ([app/agents/simple_ai_agent.py]) *)

Record SSLAgent : Type := {
  model_name : string;
  system_prompt : string
}.

(** [function_call.name] of a call. *)
Definition function_name_of (c : FunctionCall) : string :=
  match c with
  | call_check_ssl_certificate _ => "check_ssl_certificate"
  | call_check_multiple_domains _ => "check_multiple_domains"
  | call_other function_name => function_name
  end.

(** [{"name": function_name, "data": function_result}] *)
Record ArtifactData : Type := {
  dict_name : string;
  dict_data : FunctionResult
}.

(** The two dictionaries [process_message] returns. *)
Inductive ProcessResult (U : Type) : Type :=
| Processed (success : bool) (response : string)
    (artifacts : list ArtifactData) (usage : U)
| ProcessFailed (success : bool) (error : string) (response : string).
Arguments Processed {U} success response artifacts usage.
Arguments ProcessFailed {U} success error response.

Definition UnboundLocalError (name : string) : exn :=
  MkExn OtherException
    ("cannot access local variable '" ++ name
     ++ "' where it is not associated with a value").

Section ProcessMessage.
Context {rt : Runtime} {pf : Platform}.
Variable self : SSLAgent.

(** [x.text if hasattr(x, 'text') and x.text else default] *)
Definition text_or (x : GenAI.GenerateContentResponse Usage)
           (default : string) : string :=
  match GenAI.text x with
  | Some t => if String.eqb t "" then default else t
  | None => default
  end.

(** [for msg in conversation_history:] *)
Fixpoint for_msg_in (conversation_history : list JSON)
         (contents : list GenAI.ContentDict) : M (list GenAI.ContentDict) :=
  match conversation_history with
  | [] => ret contents
  | msg :: rest =>
      role <- lift (get msg "role" (JStr "user")) ;;
      content <- lift (get msg "content" (JStr "")) ;;
      for_msg_in rest (Py.append contents (GenAI.TextContent role content))
  end.

(** [for part in response.candidates[0].content.parts:], on the pair of
    [artifacts] and [final_text]; [final_text] is [None] while the
    variable is unbound. *)
Fixpoint for_part_in (contents : list GenAI.ContentDict)
         (response : GenAI.GenerateContentResponse Usage)
         (parts : list GenAI.Part)
         (artifacts : list ArtifactData) (final_text : option string)
  : M (list ArtifactData * option string) :=
  match parts with
  | [] => ret (artifacts, final_text)
  | part :: rest =>
      match GenAI.function_call part with
      | Some function_call =>
          let function_name := function_name_of function_call in
          function_result <- _execute_function function_call ;;
          let artifacts :=
            Py.append artifacts {| dict_name := function_name;
                                   dict_data := function_result |} in
          let function_response_content :=
            GenAI.FunctionResponseContent function_name function_result in
          final_response <-
            generate_content (model_name self)
              (contents ++ [function_response_content])%list false ;;
          let final_text := text_or final_response "SSL check completed." in
          for_part_in contents response rest artifacts (Some final_text)
      | None =>
          let final_text :=
            text_or response "I've processed your SSL certificate request." in
          for_part_in contents response rest artifacts (Some final_text)
      end
  end.

Definition process_message (user_message : string)
           (conversation_history : option (list JSON))
  : M (ProcessResult Usage) :=
  try_except
    (let contents := [] in
     let contents :=
       Py.append contents
         (GenAI.TextContent (JStr "user")
            (JStr ("System: " ++ system_prompt self))) in
     contents <-
       match conversation_history with
       | Some (msg :: rest) => for_msg_in (msg :: rest) contents
       | Some [] => ret contents
       | None => ret contents
       end ;;
     let contents :=
       Py.append contents (GenAI.TextContent (JStr "user") (JStr user_message)) in
     response <- generate_content (model_name self) contents true ;;
     let artifacts := [] in
     let no_parts :=
       ret (artifacts,
            Some (text_or response
                    "I've processed your SSL certificate request.")) in
     state <-
       match GenAI.candidates response with
       | [] => no_parts
       | candidate :: _ =>
           match GenAI.content candidate with
           | None => raise (NoneType_attribute_error "parts")
           | Some content =>
               match GenAI.parts content with
               | Some (part :: rest) =>
                   for_part_in contents response (part :: rest) artifacts None
               | Some [] => no_parts
               | None => no_parts
               end
           end
       end ;;
     let (artifacts, final_text) := state in
     match final_text with
     | Some final_text =>
         ret (Processed true final_text artifacts (GenAI.usage_metadata response))
     | None => raise (UnboundLocalError "final_text")
     end)
    [ (except_Exception, fun e =>
         ret (ProcessFailed false (exn_str e)
                ("I encountered an error while processing your request: "
                 ++ exn_str e))) ].

End ProcessMessage.

(** ** The A2A models ([app/models/a2a_models.py]) *)

Module A2A.

(** [DataPart.data] of a request: a dictionary or an array. *)
Inductive RequestData : Type :=
| DataDict (entries : list (string * JSON))
| DataList (items : list JSON).

(** [TextPart | DataPart | FilePart], over the type of the data a
    [DataPart] holds. *)
Inductive Part (D : Type) : Type :=
| TextPart (text : string)
| DataPart (data : D)
| FilePart (file_url : string) (mime_type : option string).
Arguments TextPart {D} text.
Arguments DataPart {D} data.
Arguments FilePart {D} file_url mime_type.

Record A2AMessage (D : Type) : Type := {
  role : string;
  parts : list (Part D);
  messageId : string;
  taskId : option string
}.
Arguments role {D} _.
Arguments parts {D} _.
Arguments messageId {D} _.
Arguments taskId {D} _.

(** [JSONRPCRequest]; [jsonrpc] and [method] are fixed by their
    [Literal] types, [params.configuration] is not read. *)
Record JSONRPCRequest : Type := {
  request_id : string;
  params_message : A2AMessage RequestData
}.

Record Artifact : Type := {
  artifactId : string;
  name : string;
  artifact_parts : list (Part FunctionResult)
}.

Record TaskStatus : Type := {
  state : string;
  timestamp : datetime;
  message : A2AMessage FunctionResult
}.

Record TaskResult : Type := {
  id : string;
  contextId : string;
  status : TaskStatus;
  artifacts : list Artifact;
  history : list (A2AMessage FunctionResult);
  kind : string
}.

(** The [error] dictionary of the route: [{"code":, "message":}]. *)
Record ErrorDict : Type := {
  code : Z;
  error_message : string
}.

Record JSONRPCResponse : Type := {
  jsonrpc : string;
  response_id : string;
  result : option TaskResult;
  error : option ErrorDict
}.

End A2A.

(** ** Reading the dictionaries of [_execute_function] with [.get] *)

Module ResultDict.

(** [d.get('domain')] and the like: [None] when the dictionary has no
    such key. *)
Definition get_domain (d : FunctionResult) : option string :=
  match d with
  | SingleSuccess _ domain _ _ => Some domain
  | SingleFailure _ domain _ _ => Some domain
  | BatchResult _ _ _ _ => None
  | UnknownFunction _ _ => None
  end.

Definition get_success (d : FunctionResult) : option bool :=
  match d with
  | SingleSuccess success _ _ _ => Some success
  | SingleFailure success _ _ _ => Some success
  | BatchResult success _ _ _ => Some success
  | UnknownFunction success _ => Some success
  end.

Definition get_certificate (d : FunctionResult) : option CertificateDict :=
  match d with
  | SingleSuccess _ _ certificate _ => Some certificate
  | _ => None
  end.

Definition get_total_domains (d : FunctionResult) : option Z :=
  match d with
  | BatchResult _ total_domains _ _ => Some total_domains
  | _ => None
  end.

Definition get_results (d : FunctionResult) : option (list DomainSummary) :=
  match d with
  | BatchResult _ _ results _ => Some results
  | _ => None
  end.

Definition get_message (d : FunctionResult) : option string :=
  match d with
  | SingleSuccess _ _ _ message => Some message
  | SingleFailure _ _ _ message => Some message
  | BatchResult _ _ _ message => Some message
  | UnknownFunction _ _ => None
  end.

Definition get_status (s : DomainSummary) : string :=
  match s with
  | CheckedSummary _ status _ _ => status
  | ErrorSummary _ status _ => status
  end.

(** ['days_remaining' in domain_result], with the value *)
Definition get_days_remaining (s : DomainSummary) : option Z :=
  match s with
  | CheckedSummary _ _ days_remaining _ => Some days_remaining
  | ErrorSummary _ _ _ => None
  end.

(** [x.get(key, default)] for a string-valued key. *)
Definition or_default (v : option string) (default : string) : string :=
  match v with
  | Some s => s
  | None => default
  end.

End ResultDict.

(** ** The route [handle_ssl_a2a_request] ([app/routes/a2a_routes.py]) *)

(** The line feed of the multi-line f-strings. *)
Definition NL : string := String "010"%char EmptyString.

Section Route.
Context {rt : Runtime} {pf : Platform}.
(** the singleton [ssl_agent] *)
Variable ssl_agent : SSLAgent.

Definition new_uuid : M string :=
  fun w => let (u, w') := uuid4 w in (Returned u, w').

(** [A2AMessage(role=, parts=, taskId=)]: [messageId] comes from its
    default factory. *)
Definition new_A2AMessage (role : string)
           (parts : list (A2A.Part FunctionResult)) (taskId : option string)
  : M (A2A.A2AMessage FunctionResult) :=
  u <- new_uuid ;;
  ret {| A2A.role := role; A2A.parts := parts;
         A2A.messageId := "msg-" ++ u; A2A.taskId := taskId |}.

(** [Artifact(name=, parts=)]: [artifactId] comes from its default
    factory. *)
Definition new_Artifact (name : string)
           (parts : list (A2A.Part FunctionResult)) : M A2A.Artifact :=
  u <- new_uuid ;;
  ret {| A2A.artifactId := "artifact-" ++ u; A2A.name := name;
         A2A.artifact_parts := parts |}.

(** [TaskStatus(state=, message=)]: [timestamp] comes from its default
    factory [datetime.utcnow]. *)
Definition new_TaskStatus (state : string)
           (message : A2A.A2AMessage FunctionResult) : M A2A.TaskStatus :=
  t <- now ;;
  ret {| A2A.state := state; A2A.timestamp := t; A2A.message := message |}.

(** The markdown of a [check_ssl_certificate] artifact. *)
Definition single_summary_text (artifact_content : FunctionResult) : string :=
  let cert_data := ResultDict.get_certificate artifact_content in
  let cert_get (field : CertificateDict -> string) : string :=
    match cert_data with
    | Some c => field c
    | None => "N/A"
    end in
  "# SSL Certificate Check" ++ NL ++
  NL ++
  "**Domain:** "
    ++ ResultDict.or_default (ResultDict.get_domain artifact_content) "N/A" ++ NL ++
  "**Status:** "
    ++ (match ResultDict.get_success artifact_content with
        | Some true => "✅ Valid"
        | _ => "❌ Invalid"
        end) ++ NL ++
  "**Valid Until:** " ++ cert_get valid_until ++ NL ++
  "**Days Remaining:** "
    ++ cert_get (fun c => Py.str_of_int (days_until_expiry c)) ++ NL ++
  NL ++
  "## Certificate Details" ++ NL ++
  "- **Issuer:** " ++ cert_get dict_issuer ++ NL ++
  "- **Subject:** " ++ cert_get dict_subject ++ NL ++
  "- **Valid From:** " ++ cert_get valid_from ++ NL.

(** [for domain_result in artifact_content.get('results', []):] *)
Fixpoint for_domain_result_in (results : list DomainSummary)
         (summary_text : string) : string :=
  match results with
  | [] => summary_text
  | domain_result :: rest =>
      let summary_text :=
        summary_text ++ "- **" ++ summary_domain domain_result ++ "**: "
        ++ ResultDict.get_status domain_result in
      let summary_text :=
        match ResultDict.get_days_remaining domain_result with
        | Some days_remaining =>
            summary_text ++ " (" ++ Py.str_of_int days_remaining ++ " days)"
        | None => summary_text
        end in
      let summary_text := summary_text ++ NL in
      for_domain_result_in rest summary_text
  end.

(** The markdown of a [check_multiple_domains] artifact. *)
Definition batch_summary_text (artifact_content : FunctionResult) : string :=
  let summary_text :=
    "# Multiple Domain SSL Check" ++ NL ++
    NL ++
    "**Total Domains:** "
      ++ Py.str_of_int (match ResultDict.get_total_domains artifact_content with
                        | Some n => n
                        | None => 0
                        end) ++ NL ++
    NL ++
    "## Results" ++ NL in
  for_domain_result_in
    (match ResultDict.get_results artifact_content with
     | Some results => results
     | None => []
     end)
    summary_text.

Definition summary_text_of (artifact_name : string)
           (artifact_content : FunctionResult) : string :=
  if String.eqb artifact_name "check_ssl_certificate" then
    single_summary_text artifact_content
  else if String.eqb artifact_name "check_multiple_domains" then
    batch_summary_text artifact_content
  else
    "**" ++ artifact_name ++ "**: "
    ++ ResultDict.or_default (ResultDict.get_message artifact_content) "Completed".

(** [for artifact_data in result["artifacts"]:] *)
Fixpoint for_artifact_data_in (artifacts_data : list ArtifactData)
         (artifacts : list A2A.Artifact) : M (list A2A.Artifact) :=
  match artifacts_data with
  | [] => ret artifacts
  | artifact_data :: rest =>
      let artifact_name := dict_name artifact_data in
      let artifact_content := dict_data artifact_data in
      let summary_text := summary_text_of artifact_name artifact_content in
      artifact <- new_Artifact artifact_name
                    [ A2A.TextPart summary_text; A2A.DataPart artifact_content ] ;;
      for_artifact_data_in rest (Py.append artifacts artifact)
  end.

(** [result.get("response", ...)], [result.get("success", False)] and
    [result["artifacts"]] when the key is there. *)
Definition result_response (result : ProcessResult Usage) : string :=
  match result with
  | Processed _ response _ _ => response
  | ProcessFailed _ _ response => response
  end.

Definition result_success (result : ProcessResult Usage) : bool :=
  match result with
  | Processed success _ _ _ => success
  | ProcessFailed success _ _ => success
  end.

Definition result_artifacts (result : ProcessResult Usage)
  : option (list ArtifactData) :=
  match result with
  | Processed _ _ artifacts _ => Some artifacts
  | ProcessFailed _ _ _ => None
  end.

Definition HTTPException (status_code : Z) (detail : string) : exn :=
  MkExn OtherException (HTTPException_str status_code detail).

Definition handle_ssl_a2a_request (request : A2A.JSONRPCRequest)
  : M A2A.JSONRPCResponse :=
  try_except
    (let message := A2A.params_message request in
     let user_text := "" in
     let conversation_history := [] in
     let user_text :=
       match A2A.parts message with
       | part_0 :: _ =>
           match part_0 with
           | A2A.TextPart text => text
           | A2A.DataPart _ => user_text   (* its data is never a str *)
           | A2A.FilePart _ _ => user_text
           end
       | [] => user_text
       end in
     let conversation_history :=
       match A2A.parts message with
       | _ :: part_1 :: _ =>
           match part_1 with
           | A2A.DataPart (A2A.DataList items) => items
           | _ => conversation_history
           end
       | _ => conversation_history
       end in
     _ <- (if String.eqb user_text ""
           then raise (HTTPException 400 "No text found in message parts")
           else ret tt) ;;
     u <- new_uuid ;;
     let context_id := "ctx-" ++ u in
     task_id <- (if String.eqb (A2A.request_id request) ""
                 then (u <- new_uuid ;; ret ("task-" ++ u))
                 else ret (A2A.request_id request)) ;;
     result <- process_message ssl_agent user_text (Some conversation_history) ;;
     response_message <-
       new_A2AMessage "agent" [ A2A.TextPart (result_response result) ]
         (Some task_id) ;;
     let artifacts := [] in
     artifacts <-
       match result_artifacts result with
       | Some (artifact_data :: rest) =>
           for_artifact_data_in (artifact_data :: rest) artifacts
       | _ => ret artifacts
       end ;;
     status <-
       new_TaskStatus (if result_success result then "completed" else "failed")
         response_message ;;
     let task_result :=
       {| A2A.id := task_id;
          A2A.contextId := context_id;
          A2A.status := status;
          A2A.artifacts := artifacts;
          A2A.history := [response_message];
          A2A.kind := "task" |} in
     ret {| A2A.jsonrpc := "2.0";
            A2A.response_id := A2A.request_id request;
            A2A.result := Some task_result;
            A2A.error := None |})
    [ (except_Exception, fun e =>
         ret {| A2A.jsonrpc := "2.0";
                A2A.response_id :=
                  if String.eqb (A2A.request_id request) ""
                  then "error" else A2A.request_id request;
                A2A.result := None;
                A2A.error :=
                  Some {| A2A.code := -32603;
                          A2A.error_message := "Internal error: " ++ exn_str e |} |}) ].

End Route.

(** ** Vocabulary for the properties of the agent and the route *)

(** The [contents] the history loop adds for [conversation_history],
    or the exception of the first item that is not a dictionary. *)
Fixpoint history_contents (conversation_history : list JSON)
  : Exc (list GenAI.ContentDict) :=
  match conversation_history with
  | [] => Returned []
  | msg :: rest =>
      match msg with
      | JDict _ =>
          match get msg "role" (JStr "user"), get msg "content" (JStr ""),
                history_contents rest with
          | Returned role, Returned content, Returned more =>
              Returned (GenAI.TextContent role content :: more)
          | Raised e, _, _ => Raised e
          | _, Raised e, _ => Raised e
          | _, _, Raised e => Raised e
          end
      | _ =>
          Raised (MkExn OtherException
                    ("'" ++ type_name msg ++ "' object has no attribute 'get'"))
      end
  end.

(** The [contents] of the first request to the model. *)
Definition first_contents (self : SSLAgent) (user_message : string)
           (more : list GenAI.ContentDict) : list GenAI.ContentDict :=
  (GenAI.TextContent (JStr "user") (JStr ("System: " ++ system_prompt self))
   :: more ++ [GenAI.TextContent (JStr "user") (JStr user_message)])%list.

(** The parts of the first candidate of a response; [None] when that
    candidate has no content. *)
Definition first_parts {U : Type} (response : GenAI.GenerateContentResponse U)
  : option (list GenAI.Part) :=
  match GenAI.candidates response with
  | [] => Some []
  | candidate :: _ =>
      match GenAI.content candidate with
      | None => None
      | Some content =>
          match GenAI.parts content with
          | Some parts => Some parts
          | None => Some []
          end
      end
  end.

(** The function calls among parts, in order. *)
Fixpoint calls_of (parts : list GenAI.Part) : list FunctionCall :=
  match parts with
  | [] => []
  | part :: rest =>
      match GenAI.function_call part with
      | Some c => c :: calls_of rest
      | None => calls_of rest
      end
  end.

(** The dictionary [process_message] returns from its [except]. *)
Definition process_failure {rt : Runtime} {pf : Platform} (e : exn)
  : ProcessResult Usage :=
  ProcessFailed false (exn_str e)
    ("I encountered an error while processing your request: " ++ exn_str e).

(** [a] is the artifact dictionary of the call [c]: it carries the name
    of the call and what [_execute_function] returned for it. *)
Definition artifact_for {rt : Runtime} (c : FunctionCall) (a : ArtifactData)
  : Prop :=
  dict_name a = function_name_of c /\
  exists v v', _execute_function c v = (Returned (dict_data a), v').

(** The text of the request's first part when that is a non-empty
    [TextPart]. *)
Definition first_text (request : A2A.JSONRPCRequest) : option string :=
  match A2A.parts (A2A.params_message request) with
  | A2A.TextPart text :: _ => if String.eqb text "" then None else Some text
  | _ => None
  end.

(** The array of the request's second part when that is a [DataPart]
    holding an array, else the empty history. *)
Definition second_history (request : A2A.JSONRPCRequest) : list JSON :=
  match A2A.parts (A2A.params_message request) with
  | _ :: A2A.DataPart (A2A.DataList items) :: _ => items
  | _ => []
  end.

(** The artifact the route builds from one dictionary of the agent. *)
Definition artifact_of (a : ArtifactData) (artifact : A2A.Artifact) : Prop :=
  A2A.name artifact = dict_name a /\
  A2A.artifact_parts artifact =
    [ A2A.TextPart (summary_text_of (dict_name a) (dict_data a));
      A2A.DataPart (dict_data a) ].

(** The task result the route builds around the dictionary [res] of
    the agent, for the given task and context identifiers. *)
Definition task_result_for {rt : Runtime} {pf : Platform}
           (task_id context_id : string) (res : ProcessResult Usage)
           (tr : A2A.TaskResult) : Prop :=
  A2A.id tr = task_id /\
  A2A.contextId tr = context_id /\
  A2A.kind tr = "task" /\
  A2A.state (A2A.status tr) =
    (if result_success res then "completed" else "failed") /\
  A2A.history tr = [A2A.message (A2A.status tr)] /\
  A2A.role (A2A.message (A2A.status tr)) = "agent" /\
  A2A.parts (A2A.message (A2A.status tr)) =
    [A2A.TextPart (result_response res)] /\
  A2A.taskId (A2A.message (A2A.status tr)) = Some task_id /\
  Forall2 artifact_of
    (match result_artifacts res with Some l => l | None => [] end)
    (A2A.artifacts tr).

(** The response of the route to a request without text. *)
Definition no_text_response {rt : Runtime} {pf : Platform}
           (request : A2A.JSONRPCRequest) : A2A.JSONRPCResponse :=
  {| A2A.jsonrpc := "2.0";
     A2A.response_id :=
       if String.eqb (A2A.request_id request) ""
       then "error" else A2A.request_id request;
     A2A.result := None;
     A2A.error :=
       Some {| A2A.code := -32603;
               A2A.error_message :=
                 "Internal error: "
                 ++ HTTPException_str 400 "No text found in message parts" |} |}.

(** One line of the batch markdown. *)
Definition summary_line (s : DomainSummary) : string :=
  "- **" ++ summary_domain s ++ "**: " ++ ResultDict.get_status s
  ++ match ResultDict.get_days_remaining s with
     | Some days_remaining => " (" ++ Py.str_of_int days_remaining ++ " days)"
     | None => ""
     end
  ++ NL.

(** ** A test double for the platform

    The model answers a first request by the last user text: a batch
    call for "check a.com and b.com", a single call for
    "check expired.example", an exception for "overload", and plain text
    otherwise; it answers a request without the tools configuration
    with "Done.".  Identifiers are numbered by the clock. *)

Definition sample_generate_content (model : string)
           (contents : list GenAI.ContentDict) (tools : bool) (w : Z)
  : Exc (GenAI.GenerateContentResponse nat) * Z :=
  let answer (calls : list FunctionCall) (text : option string) :=
    Returned
      {| GenAI.candidates :=
           [ {| GenAI.content :=
                  Some {| GenAI.parts :=
                            Some (map (fun c => {| GenAI.function_call := Some c |})
                                      calls) |} |} ];
         GenAI.text := text;
         GenAI.usage_metadata := List.length contents |} in
  if negb tools then (answer [] (Some "Done."), w) else
  match last contents (GenAI.TextContent JNull JNull) with
  | GenAI.FunctionResponseContent _ _ => (answer [] (Some "Done."), w)
  | GenAI.TextContent _ (JStr text) =>
      if String.eqb text "check a.com and b.com" then
        (answer [call_check_multiple_domains (Some ["a.com"; "b.com"])] None, w)
      else if String.eqb text "check expired.example" then
        (answer [call_check_ssl_certificate "expired.example"] None, w)
      else if String.eqb text "overload" then
        (Raised (MkExn OtherException "503 UNAVAILABLE"), w)
      else (answer [] (Some "Which domain shall I check?"), w)
  | GenAI.TextContent _ _ => (answer [] None, w)
  end.

Definition sample_platform : Platform (rt:=sample_runtime) :=
  {| Usage := nat;
     generate_content :=
       sample_generate_content
       : string -> list GenAI.ContentDict -> bool ->
         M (rt:=sample_runtime) (GenAI.GenerateContentResponse nat);
     uuid4 := fun w : Z => ("0000-" ++ Py.str_of_int (w mod 1000), w + 1);
     HTTPException_str := fun status_code detail =>
       Py.str_of_int status_code ++ ": " ++ detail |}.

Definition sample_agent : SSLAgent :=
  {| model_name := "gemini-2.0-flash-exp";
     system_prompt := "Your name is SSL Guardian" |}.

Definition sample_request (id : string)
           (parts : list (A2A.Part A2A.RequestData)) : A2A.JSONRPCRequest :=
  {| A2A.request_id := id;
     A2A.params_message :=
       {| A2A.role := "user"; A2A.parts := parts;
          A2A.messageId := "msg-1"; A2A.taskId := None |} |}.

(** * Properties *)

(** ** Slices and the common-name search *)

Lemma slice_to_length (n : nat) (s : string) :
  String.length (Py.slice_to n s) = Nat.min n (String.length s).
Proof.
  unfold Py.slice_to. revert s.
  induction n as [|n IH]; intros [|a s]; cbn; auto.
Qed.

Lemma slice_to_short (n : nat) (s : string) :
  (String.length s <= n)%nat -> Py.slice_to n s = s.
Proof.
  unfold Py.slice_to. revert s.
  induction n as [|n IH]; intros [|a s]; cbn; intros Hlen;
    try reflexivity; try lia.
  f_equal. apply IH. lia.
Qed.

Lemma slice_to_prefix (n : nat) (s : string) :
  prefix (Py.slice_to n s) s = true.
Proof.
  unfold Py.slice_to. revert s.
  induction n as [|n IH]; intros [|a s]; cbn; try reflexivity.
  destruct (ascii_dec a a) as [_|Hne]; [apply IH|congruence].
Qed.

Lemma prefix_append (p s : string) : prefix p (p ++ s) = true.
Proof.
  induction p as [|a p IH]; cbn.
  - destruct s; reflexivity.
  - destruct (ascii_dec a a) as [_|Hne]; [exact IH|congruence].
Qed.

Lemma common_name_loop_spec (attrs : list NameAttribute) (default : string) :
  first_common_name_or attrs default (common_name_loop attrs default).
Proof.
  unfold first_common_name_or.
  induction attrs as [|a rest IH]; cbn.
  - right. split; [constructor|reflexivity].
  - destruct (String.eqb_spec (oid_name a) "commonName") as [Hcn|Hother].
    + left. exists [], a, rest. repeat split; auto.
    + destruct IH as [(before & b & after & Hsplit & Hnone & Hcn & Hval)
                     |(Hnone & Hval)].
      * left. exists (a :: before), b, after.
        split; [cbn [app]; f_equal; exact Hsplit|].
        split; [constructor; assumption|]. split; assumption.
      * right. split; [constructor; assumption|exact Hval].
Qed.

(** ** The evaluator, [_parse_certificate] *)

Section Evaluator.
Context {rt : Runtime}.

(** A successful parse read the clock once, after the DER parser and
    before the key size, and built its record from that one reading. *)
Lemma parse_certificate_inv (self : SSLCheckerService) (der : bytes) (d : string) (w w' : World)
      (c : SSLCertificate) :
  _parse_certificate self der d w = (Returned c, w') ->
  exists x key,
    load_der_x509_certificate der = Returned x /\
    public_key_size x = Returned key /\
    w' = snd (datetime_now w) /\
    let t := fst (datetime_now w) in
    let days := timedelta_days (not_valid_after_utc x - t) in
    c = {| domain := d;
           isValid := negb (t >? not_valid_after_utc x);
           issuer := common_name_loop (x509_issuer x) "Unknown";
           subject := common_name_loop (x509_subject x) d;
           notBefore := not_valid_before_utc x;
           notAfter := not_valid_after_utc x;
           daysUntilExpiry := days;
           isExpired := t >? not_valid_after_utc x;
           isExpiringSoon := (0 <? days) && (days <=? warning_days self);
           keySize := key;
           signatureAlgorithm := signature_algorithm_name x;
           sanList := match subject_alternative_name x with
                      | Some san_ext => dns_values san_ext
                      | None => []
                      end;
           serialNumber := Py.slice_to 16 (Py.hex (serial_number x)) |}.
Proof.
  unfold _parse_certificate, bind, lift, now, ret.
  destruct (load_der_x509_certificate der) as [x|e]; [|discriminate].
  destruct (datetime_now w) as [t w1] eqn:Hclock.
  destruct (public_key_size x) as [key|e] eqn:Hkey; [|discriminate].
  intros H. injection H as Hc Hw.
  exists x, key. cbn [fst snd]. repeat split; auto.
Qed.

Lemma timedelta_days_nonneg (d : timedelta) :
  0 <= timedelta_days d <-> 0 <= d.
Proof.
  unfold timedelta_days, MICROSECONDS_PER_DAY.
  Z.div_mod_to_equations. lia.
Qed.

Lemma timedelta_days_pos (d : timedelta) :
  0 < timedelta_days d <-> MICROSECONDS_PER_DAY <= d.
Proof.
  unfold timedelta_days, MICROSECONDS_PER_DAY.
  Z.div_mod_to_equations. lia.
Qed.

Ltac parsed H :=
  apply parse_certificate_inv in H;
  destruct H as (?x & ?key & ?Hload & ?Hkey & ?Hworld & H);
  cbv zeta in H; subst; cbn [domain isValid issuer subject notBefore notAfter
    daysUntilExpiry isExpired isExpiringSoon keySize signatureAlgorithm
    sanList serialNumber] in *.

(** C3, as amended: for a certificate whose notAfter is after the check
    time, the evaluator yields isExpired = false and a daysUntilExpiry
    that is non-negative; it is positive exactly when notAfter is at
    least one whole day (24 hours) after the check time. *)
Theorem future_certificate_not_expired
        (self : SSLCheckerService)
        (der : bytes) (d : string) (w w' : World) (c : SSLCertificate) :
  _parse_certificate self der d w = (Returned c, w') ->
  fst (datetime_now w) < notAfter c ->
  isExpired c = false /\
  0 <= daysUntilExpiry c /\
  (0 < daysUntilExpiry c <->
   fst (datetime_now w) + MICROSECONDS_PER_DAY <= notAfter c).
Proof.
  intros H Hfuture. parsed H.
  split; [|split].
  - rewrite Z.gtb_ltb. apply Z.ltb_ge. lia.
  - apply timedelta_days_nonneg. lia.
  - rewrite timedelta_days_pos. lia.
Qed.

(** C4: for a certificate whose notAfter is before the check time, the
    evaluator yields isExpired = true, isValid = false and
    isExpiringSoon = false; and isValid is always the negation of
    isExpired. *)
Theorem past_certificate_expired
        (self : SSLCheckerService)
        (der : bytes) (d : string) (w w' : World) (c : SSLCertificate) :
  _parse_certificate self der d w = (Returned c, w') ->
  isValid c = negb (isExpired c) /\
  (notAfter c < fst (datetime_now w) ->
   isExpired c = true /\ isValid c = false /\ isExpiringSoon c = false).
Proof.
  intros H. parsed H.
  split; [reflexivity|].
  intros Hpast.
  assert (Hexp : (fst (datetime_now w) >? not_valid_after_utc x) = true).
  { rewrite Z.gtb_ltb. apply Z.ltb_lt. exact Hpast. }
  rewrite Hexp. repeat split.
  apply andb_false_iff. left. apply Z.ltb_ge.
  pose proof (timedelta_days_pos (not_valid_after_utc x - fst (datetime_now w)))
    as Hpos.
  unfold MICROSECONDS_PER_DAY in Hpos. lia.
Qed.

(** C5: isExpiringSoon is true iff 0 < daysUntilExpiry <= warningDays;
    so with a positive threshold (the default is 30) it is true when
    daysUntilExpiry equals warningDays, and it is false when
    daysUntilExpiry equals warningDays + 1. *)
Theorem expiring_soon_window
        (self : SSLCheckerService)
        (der : bytes) (d : string) (w w' : World) (c : SSLCertificate) :
  _parse_certificate self der d w = (Returned c, w') ->
  (isExpiringSoon c = true <-> 0 < daysUntilExpiry c <= warning_days self) /\
  (0 < warning_days self ->
   daysUntilExpiry c = warning_days self -> isExpiringSoon c = true) /\
  (daysUntilExpiry c = warning_days self + 1 -> isExpiringSoon c = false) /\
  warning_days default_service = 30.
Proof.
  intros H. parsed H.
  set (days := timedelta_days _).
  assert (Hiff : (0 <? days) && (days <=? warning_days self) = true
                 <-> 0 < days <= warning_days self).
  { rewrite andb_true_iff, Z.ltb_lt, Z.leb_le. tauto. }
  split; [exact Hiff|]. split; [|split; [|reflexivity]].
  - intros Hpos Heq. apply Hiff. lia.
  - intros Heq. apply not_true_is_false. rewrite Hiff. lia.
Qed.

(** C9: for a certificate the evaluator produced, isExpired holds iff
    daysUntilExpiry is strictly negative; an expired certificate has
    daysUntilExpiry <= -1 and its warning cites at least 1 day since
    expiry; a certificate that is not expired has daysUntilExpiry >= 0. *)
Theorem expired_iff_negative_days
        (self : SSLCheckerService)
        (der : bytes) (d : string) (w w' : World) (c : SSLCertificate) :
  _parse_certificate self der d w = (Returned c, w') ->
  (isExpired c = true <-> daysUntilExpiry c < 0) /\
  (isExpired c = true ->
   daysUntilExpiry c <= -1 /\
   exists n, 1 <= n /\ n = Z.abs (daysUntilExpiry c) /\
     In ("⚠️ Certificate EXPIRED " ++ Py.str_of_int n ++ " days ago")
        (_generate_warnings c)) /\
  (isExpired c = false -> 0 <= daysUntilExpiry c).
Proof.
  intros H. parsed H.
  set (t := fst (datetime_now w)). set (na := not_valid_after_utc x).
  assert (Hiff : (t >? na) = true <-> timedelta_days (na - t) < 0).
  { rewrite Z.gtb_ltb, Z.ltb_lt.
    pose proof (timedelta_days_nonneg (na - t)). lia. }
  split; [exact Hiff|]. split.
  - intros Hexp. pose proof (proj1 Hiff Hexp) as Hneg.
    split; [lia|].
    exists (Z.abs (timedelta_days (na - t))).
    split; [lia|]. split; [reflexivity|].
    unfold _generate_warnings. cbn [isExpired daysUntilExpiry keySize].
    rewrite Hexp. unfold Py.append.
    destruct (key <? 2048); cbn [app]; left; reflexivity.
  - intros Hlive. apply Z.nlt_ge. intros Hneg.
    apply Hiff in Hneg. congruence.
Qed.

(** C8: issuer is the value of the first commonName attribute of the
    issuer name, or "Unknown" when the name has none; subject is the
    value of the first commonName attribute of the subject name, or the
    queried domain when the name has none. *)
Theorem issuer_and_subject_common_name
        (self : SSLCheckerService)
        (der : bytes) (d : string) (w w' : World)
        (x : X509) (c : SSLCertificate) :
  load_der_x509_certificate der = Returned x ->
  _parse_certificate self der d w = (Returned c, w') ->
  first_common_name_or (x509_issuer x) "Unknown" (issuer c) /\
  first_common_name_or (x509_subject x) d (subject c).
Proof.
  intros Hx H. parsed H.
  rewrite Hx in Hload. injection Hload as <-.
  split; apply common_name_loop_spec.
Qed.

(** C7: the rendered serialNumber depends on the serial number alone
    (two evaluations of certificates with the same serial, under any
    service settings, domain or clock, give the same string), and it is
    exactly 16 characters long unless the whole rendering [hex(serial)]
    is shorter than 16 characters, in which case it is that rendering. *)
Theorem serial_number_rendering
        (self self' : SSLCheckerService)
        (der der' : bytes) (d d' : string) (w w' v v' : World)
        (x x' : X509) (c c' : SSLCertificate) :
  load_der_x509_certificate der = Returned x ->
  load_der_x509_certificate der' = Returned x' ->
  _parse_certificate self der d w = (Returned c, v) ->
  _parse_certificate self' der' d' w' = (Returned c', v') ->
  (serial_number x = serial_number x' -> serialNumber c = serialNumber c') /\
  (String.length (serialNumber c) = 16%nat \/
   (String.length (Py.hex (serial_number x)) < 16)%nat /\
   serialNumber c = Py.hex (serial_number x)) /\
  prefix (serialNumber c) (Py.hex (serial_number x)) = true.
Proof.
  intros Hx Hx' H H'.
  apply parse_certificate_inv in H. destruct H as (y & k & Hy & _ & _ & H).
  apply parse_certificate_inv in H'. destruct H' as (y' & k' & Hy' & _ & _ & H').
  cbv zeta in H, H'. subst c c'. cbn [serialNumber].
  rewrite Hx in Hy. injection Hy as <-.
  rewrite Hx' in Hy'. injection Hy' as <-.
  split; [intros ->; reflexivity|]. split.
  - destruct (Nat.le_gt_cases 16 (String.length (Py.hex (serial_number x))))
      as [Hlong|Hshort].
    + left. rewrite slice_to_length. lia.
    + right. split; [exact Hshort|]. apply slice_to_short. lia.
  - apply slice_to_prefix.
Qed.

End Evaluator.

(** ** Warning generation, [_generate_warnings] *)

Lemma expiry_warning_not_weak_key (s : string) :
  is_expiry_warning s = true -> s <> WEAK_KEY_WARNING.
Proof.
  intros Hs ->. vm_compute in Hs. discriminate.
Qed.

(** C6: for every certificate record the warnings contain at most one
    expiry warning, chosen in this order: the expired text with the
    absolute value of daysUntilExpiry when isExpired; else the critical
    text when daysUntilExpiry <= 7; else the expiring-soon text when
    isExpiringSoon; else none.  Whatever the expiry state, the weak-key
    warning is among the warnings iff keySize < 2048. *)
Theorem generate_warnings_priority (cert : SSLCertificate) :
  let ws := _generate_warnings cert in
  let days := daysUntilExpiry cert in
  filter is_expiry_warning ws =
    (if isExpired cert then
       ["⚠️ Certificate EXPIRED " ++ Py.str_of_int (Z.abs days) ++ " days ago"]
     else if days <=? 7 then
       ["🚨 Certificate expires in " ++ Py.str_of_int days ++ " days (CRITICAL)"]
     else if isExpiringSoon cert then
       ["⚠️ Certificate expires in " ++ Py.str_of_int days ++ " days"]
     else []) /\
  (List.length (filter is_expiry_warning ws) <= 1)%nat /\
  (In "⚠️ Weak key size (< 2048 bits)" ws <-> keySize cert < 2048).
Proof.
  cbv zeta. unfold _generate_warnings, Py.append.
  set (gone := Py.str_of_int (Z.abs _)).
  set (left_ := Py.str_of_int _).
  assert (Hweak : is_expiry_warning WEAK_KEY_WARNING = false) by reflexivity.
  assert (Hexpired :
    is_expiry_warning ("⚠️ Certificate EXPIRED " ++ gone ++ " days ago") = true).
  { unfold is_expiry_warning. rewrite prefix_append. reflexivity. }
  assert (Hcritical :
    is_expiry_warning
      ("🚨 Certificate expires in " ++ left_ ++ " days (CRITICAL)") = true).
  { unfold is_expiry_warning.
    rewrite (prefix_append "🚨 Certificate expires in ").
    rewrite orb_true_r. reflexivity. }
  assert (Hsoon :
    is_expiry_warning ("⚠️ Certificate expires in " ++ left_ ++ " days") = true).
  { unfold is_expiry_warning.
    rewrite (prefix_append "⚠️ Certificate expires in ").
    apply orb_true_r. }
  pose proof (expiry_warning_not_weak_key _ Hexpired) as Nexpired.
  pose proof (expiry_warning_not_weak_key _ Hcritical) as Ncritical.
  pose proof (expiry_warning_not_weak_key _ Hsoon) as Nsoon.
  unfold WEAK_KEY_WARNING in *.
  destruct (isExpired cert);
    [|destruct (daysUntilExpiry cert <=? 7);
      [|destruct (isExpiringSoon cert)]];
    destruct (Z.ltb_spec (keySize cert) 2048) as [Hkey|Hkey];
    cbn [app filter List.length];
    rewrite ?Hexpired, ?Hcritical, ?Hsoon, ?Hweak;
    cbn [filter List.length In];
    (split; [reflexivity|split; [lia|]]);
    (split; [intros Hin; try lia; intuition congruence
            |intros Hlt; try lia; auto]).
Qed.

(** ** The single-domain check *)

Section Checks.
Context {rt : Runtime}.

Lemma new_SSLCheckResult_returns (d : string) (ok : bool)
      (c : option SSLCertificate) (err : option string) (ws : list string)
      (w : World) :
  new_SSLCheckResult d ok c err ws w =
  (Returned {| res_domain := d; success := ok; certificate := c;
               error := err; checkedAt := fst (datetime_now w);
               warnings := ws |},
   snd (datetime_now w)).
Proof.
  unfold new_SSLCheckResult, bind, now, ret.
  destruct (datetime_now w); reflexivity.
Qed.

Lemma check_certificate_returns (self : SSLCheckerService) (d : string)
      (port : Z) (w : World) :
  exists r w',
    check_certificate self d port w = (Returned r, w') /\
    res_domain r = d /\
    check_outcome self d port w r.
Proof.
  unfold check_certificate, check_outcome, try_except, bind.
  destruct (_get_certificate self d port w) as [[der|e] w1].
  - destruct (_parse_certificate self der d w1) as [[c|e] w2].
    + rewrite new_SSLCheckResult_returns.
      eexists; eexists. split; [reflexivity|]. cbn. auto.
    + destruct e as [[] msg]; cbn [dispatch isinstance exn_class];
        rewrite new_SSLCheckResult_returns;
        (eexists; eexists; split; [reflexivity|]); cbn; auto.
  - destruct e as [[] msg]; cbn [dispatch isinstance exn_class];
      rewrite new_SSLCheckResult_returns;
      (eexists; eexists; split; [reflexivity|]); cbn; auto.
Qed.

Lemma check_outcome_presence (self : SSLCheckerService) (d : string)
      (port : Z) (w : World) (r : SSLCheckResult) :
  check_outcome self d port w r ->
  (success r = true <-> certificate r <> None) /\
  (success r = false <-> error r <> None).
Proof.
  unfold check_outcome.
  destruct (_get_certificate self d port w) as [[der|e] w1];
    [destruct (_parse_certificate self der d w1) as [[c|e] w2]|];
    intros (Hs & Hc & He & _); rewrite Hs, Hc, He;
    repeat split; intros; congruence.
Qed.

(** C1: for every domain and port [check_certificate] returns a result
    and raises nothing.  When the fetch or the parse raises (timeout,
    DNS error, TLS error, or any other exception) the result has
    success = false and the error text of that exception's class; the
    certificate is present iff success is true and the error string is
    present iff success is false. *)
Theorem check_certificate_never_raises (self : SSLCheckerService)
        (d : string) (port : Z) (w : World) :
  exists r w',
    check_certificate self d port w = (Returned r, w') /\
    res_domain r = d /\
    (success r = true <-> certificate r <> None) /\
    (success r = false <-> error r <> None) /\
    check_outcome self d port w r.
Proof.
  destruct (check_certificate_returns self d port w) as (r & w' & Hrun & Hd & Hout).
  exists r, w'. pose proof (check_outcome_presence _ _ _ _ _ Hout) as [Hc He].
  auto.
Qed.

(** C10: awaiting [check_domain] gives exactly the result (and leaves
    the world exactly as) [check_certificate] does on the same
    arguments; the statements after its [return] are never run. *)
Theorem check_domain_is_check_certificate (self : SSLCheckerService)
        (d : string) (port : Z) (w : World) :
  exists r w',
    check_certificate self d port w = (Returned r, w') /\
    check_domain self d port w = (Returned (Some r), w').
Proof.
  destruct (check_certificate_returns self d port w) as (r & w' & Hrun & _).
  exists r, w'. split; [exact Hrun|].
  unfold check_domain, call, seq, return_, bind, ret.
  rewrite Hrun. reflexivity.
Qed.

End Checks.

(** ** The batch branch of [_execute_function] *)

Section Batch.
Context {rt : Runtime}.

Lemma summarize_returns (d : string) (r : SSLCheckResult) :
  (success r = true <-> certificate r <> None) ->
  exists s, summary_domain s = d /\ recorded_for d r s.
Proof.
  intros Hpresent. unfold recorded_for, summarize.
  destruct (success r) eqn:Hs.
  - destruct (certificate r) as [c|] eqn:Hc.
    + eexists. split; [|intros; reflexivity]. reflexivity.
    + exfalso. apply (proj1 Hpresent); reflexivity.
  - eexists. split; [|intros; reflexivity]. reflexivity.
Qed.

Lemma for_domain_in_returns (domains : list string) :
  forall (results : list DomainSummary) (w : World),
  exists out w',
    for_domain_in domains results w = (Returned (results ++ out)%list, w') /\
    summaries_of domains out.
Proof.
  induction domains as [|d rest IH]; intros results w.
  - exists [], w. cbn. rewrite app_nil_r. split; [reflexivity|constructor].
  - destruct (check_certificate_returns ssl_checker d 443 w)
      as (r & w1 & Hrun & _ & Hout).
    apply check_outcome_presence in Hout. destruct Hout as [Hpresent _].
    destruct (summarize_returns d r Hpresent) as (s & Hdom & Hrec).
    destruct (IH (Py.append results s) w1) as (out & w2 & Hrest & Hall).
    exists (s :: out), w2. split.
    + cbn [for_domain_in]. unfold bind at 1. rewrite Hrun.
      unfold bind at 1. rewrite Hrec. rewrite Hrest.
      unfold Py.append. rewrite <- app_assoc. reflexivity.
    + constructor; [|exact Hall].
      split; [exact Hdom|]. exists w, r, w1. auto.
Qed.

Lemma summaries_of_domains (domains : list string) (out : list DomainSummary) :
  summaries_of domains out -> map summary_domain out = domains.
Proof.
  induction 1 as [|d s ds ss [Hdom _] _ IH]; cbn; [reflexivity|].
  rewrite Hdom, IH. reflexivity.
Qed.

(** A batch over [ds1 ++ ds2] is the batch over [ds1] followed, from the
    world it leaves, by the batch over [ds2]: what is recorded for the
    domains of [ds1] does not depend on [ds2], and the other way round
    only through the world. *)
Lemma for_domain_in_app (ds1 ds2 : list string) :
  forall (results : list DomainSummary) (w : World),
    for_domain_in (ds1 ++ ds2) results w =
    (mid <- for_domain_in ds1 results ;; for_domain_in ds2 mid) w.
Proof.
  induction ds1 as [|d rest IH]; intros results w.
  - cbn [app for_domain_in]. unfold bind, ret. reflexivity.
  - cbn [app for_domain_in]. unfold bind.
    destruct (check_certificate ssl_checker d 443 w) as [[r|e] w1];
      [|reflexivity].
    destruct (summarize d r results w1) as [[acc|e] w2]; [|reflexivity].
    rewrite IH. reflexivity.
Qed.

(** C2: for every list of N domains the batch call returns; its total
    is N, and its results are exactly one summary per input domain, in
    input order, duplicates kept.  Each summary is the one recorded for
    what [check_certificate] returned for its own domain, whether or not
    the checks of other domains failed. *)
Theorem check_multiple_domains_in_order (domains : list string) (w : World) :
  exists results w',
    _execute_function (call_check_multiple_domains (Some domains)) w =
    (Returned
       (BatchResult true (Z.of_nat (List.length domains)) results
          ("Checked " ++ Py.str_of_int (Z.of_nat (List.length domains))
                      ++ " domain(s)")),
     w') /\
    List.length results = List.length domains /\
    map summary_domain results = domains /\
    summaries_of domains results.
Proof.
  destruct (for_domain_in_returns domains [] w) as (out & w' & Hrun & Hall).
  exists out, w'. split; [|split; [|split]].
  - cbn [_execute_function]. unfold check_multiple_domains, bind.
    rewrite Hrun. reflexivity.
  - symmetry. exact (Forall2_length Hall).
  - exact (summaries_of_domains _ _ Hall).
  - exact Hall.
Qed.

End Batch.

(** ** The theorems at work on the test double *)


(** A batch of a name that does not resolve and one that does: two
    summaries, in input order, the first an error and the second the
    real status of the second host. *)
Example batch_of_unresolved_and_valid :
  fst (_execute_function (rt:=sample_runtime)
         (call_check_multiple_domains (Some ["a.com"; "b.com"])) t0) =
  Returned
    (BatchResult true 2
       [ ErrorSummary "a.com" "❌ Error" (Some "Domain not found (DNS error)");
         CheckedSummary "b.com" "✅ Valid" 59 "day 20820" ]
       "Checked 2 domain(s)").
Proof. vm_compute. reflexivity. Qed.

(** The default threshold: 30 days left is expiring soon, 31 is not. *)
Example thirty_days_expiring_soon :
  match sample_parse "month.example", sample_parse "month1.example" with
  | (Returned c, _), (Returned c1, _) =>
      daysUntilExpiry c = 30 /\ isExpiringSoon c = true /\
      daysUntilExpiry c1 = 31 /\ isExpiringSoon c1 = false
  | _, _ => False
  end.
Proof. vm_compute. repeat split. Qed.

(** An expired certificate with a weak key gets both warnings. *)
Example expired_weak_key_warnings :
  match sample_parse "expired.example" with
  | (Returned c, _) =>
      _generate_warnings c =
      [ "⚠️ Certificate EXPIRED 1 days ago"; "⚠️ Weak key size (< 2048 bits)" ]
  | _ => False
  end.
Proof. vm_compute. reflexivity. Qed.

(** C3 as stated fails: a certificate that expires one hour after the
    check is not expired, yet its daysUntilExpiry is 0. *)
Lemma future_certificate_zero_days :
  exists c w',
    sample_parse "hour.example" = (Returned c, w') /\
    fst (datetime_now (Runtime:=sample_runtime) t0) < notAfter c /\
    isExpired c = false /\
    ~ daysUntilExpiry c > 0.
Proof.
  eexists; eexists. split; [lazy; reflexivity|].
  split; [lazy; reflexivity|]. split; [lazy; reflexivity|].
  cbn. intros H. discriminate H.
Qed.

(** C3 as amended, on a certificate with 60 days left. *)
Lemma future_certificate_not_expired_witness :
  exists c w',
    sample_parse "b.com" = (Returned c, w') /\
    fst (datetime_now (Runtime:=sample_runtime) t0) < notAfter c /\
    isExpired c = false /\ 0 <= daysUntilExpiry c /\
    (0 < daysUntilExpiry c <->
     fst (datetime_now (Runtime:=sample_runtime) t0) + MICROSECONDS_PER_DAY <= notAfter c).
Proof.
  eexists; eexists. split; [lazy; reflexivity|]. split; [lazy; reflexivity|].
  apply (future_certificate_not_expired (rt:=sample_runtime) default_service
           (sample_der "b.com") "b.com" t0 _ _ eq_refl).
  reflexivity.
Defined.

(** C4 on a certificate that expired an hour before the check. *)
Lemma past_certificate_expired_witness :
  exists c w',
    sample_parse "expired.example" = (Returned c, w') /\
    notAfter c < fst (datetime_now (Runtime:=sample_runtime) t0) /\
    isValid c = negb (isExpired c) /\
    isExpired c = true /\ isValid c = false /\ isExpiringSoon c = false.
Proof.
  eexists; eexists. split; [lazy; reflexivity|]. split; [lazy; reflexivity|].
  destruct (past_certificate_expired (rt:=sample_runtime) default_service
              (sample_der "expired.example") "expired.example" t0 _ _ eq_refl)
    as [Hvalid Hpast].
  split; [exact Hvalid|]. apply Hpast. reflexivity.
Defined.

(** C5 on a certificate with exactly warningDays = 30 days left. *)
Lemma expiring_soon_window_witness :
  exists c w',
    sample_parse "month.example" = (Returned c, w') /\
    daysUntilExpiry c = warning_days default_service /\
    isExpiringSoon c = true.
Proof.
  eexists; eexists. split; [lazy; reflexivity|]. split; [lazy; reflexivity|].
  destruct (expiring_soon_window (rt:=sample_runtime) default_service
              (sample_der "month.example") "month.example" t0 _ _ eq_refl)
    as (_ & Hat & _).
  apply Hat; reflexivity.
Defined.

(** C9 on a certificate that expired an hour before the check. *)
Lemma expired_iff_negative_days_witness :
  exists c w',
    sample_parse "expired.example" = (Returned c, w') /\
    (isExpired c = true <-> daysUntilExpiry c < 0) /\
    daysUntilExpiry c <= -1 /\
    In "⚠️ Certificate EXPIRED 1 days ago" (_generate_warnings c).
Proof.
  eexists; eexists. split; [lazy; reflexivity|].
  destruct (expired_iff_negative_days (rt:=sample_runtime) default_service
              (sample_der "expired.example") "expired.example" t0 _ _ eq_refl)
    as (Hiff & Hexpired & _).
  split; [exact Hiff|].
  destruct (Hexpired eq_refl) as (Hle & n & _ & Hn & Hin).
  split; [exact Hle|]. subst n. exact Hin.
Defined.

(** C8 on a certificate whose issuer has a commonName and whose subject
    has none. *)
Lemma issuer_and_subject_common_name_witness :
  exists x c w',
    load_der_x509_certificate (Runtime:=sample_runtime) (sample_der "b.com") = Returned x /\
    sample_parse "b.com" = (Returned c, w') /\
    first_common_name_or (x509_issuer x) "Unknown" (issuer c) /\
    first_common_name_or (x509_subject x) "b.com" (subject c) /\
    issuer c = "Example CA R3" /\ subject c = "b.com".
Proof.
  eexists; eexists; eexists. split; [lazy; reflexivity|]. split; [lazy; reflexivity|].
  destruct (issuer_and_subject_common_name (rt:=sample_runtime) default_service
              (sample_der "b.com") "b.com" t0 _ _ _ eq_refl eq_refl)
    as [Hissuer Hsubject].
  repeat split; [exact Hissuer|exact Hsubject].
Defined.

(** C7 on two evaluations of one serial number, under different service
    settings, domains and clocks. *)
Lemma serial_number_rendering_witness :
  exists x x' c c' v v',
    load_der_x509_certificate (Runtime:=sample_runtime) (sample_der "b.com") = Returned x /\
    load_der_x509_certificate (Runtime:=sample_runtime) (sample_der "expired.example") = Returned x' /\
    sample_parse "b.com" = (Returned c, v) /\
    _parse_certificate (rt:=sample_runtime) {| timeout := 3; warning_days := 14 |}
      (sample_der "expired.example") "expired.example" (t0 + HOUR) = (Returned c', v') /\
    serial_number x = serial_number x' /\
    serialNumber c = serialNumber c' /\
    String.length (serialNumber c) = 16%nat /\
    serialNumber c = "0x4e1b2c3d4a5968".
Proof.
  do 6 eexists.
  split; [lazy; reflexivity|]. split; [lazy; reflexivity|].
  split; [lazy; reflexivity|]. split; [lazy; reflexivity|].
  destruct (serial_number_rendering (rt:=sample_runtime) default_service
              {| timeout := 3; warning_days := 14 |}
              (sample_der "b.com") (sample_der "expired.example") "b.com" "expired.example"
              t0 (t0 + HOUR) _ _ _ _ _ _ eq_refl eq_refl eq_refl eq_refl)
    as (Hsame & _ & _).
  split; [lazy; reflexivity|]. split; [apply Hsame; reflexivity|].
  split; reflexivity.
Defined.

(** * Further properties *)

(** ** The evaluator and the warnings together *)

Section EvaluatorMore.
Context {rt : Runtime}.

Ltac evaluated H :=
  apply parse_certificate_inv in H;
  destruct H as (?x & ?key & ?Hload & ?Hkey & ?Hworld & H);
  cbv zeta in H; subst; cbn [domain isValid issuer subject notBefore notAfter
    daysUntilExpiry isExpired isExpiringSoon keySize signatureAlgorithm
    sanList serialNumber] in *.

(** X1: a certificate the evaluator produced gets no warning at all iff
    it has more than max(7, warning_days) whole days left and a key of
    at least 2048 bits. *)
Theorem no_warnings_iff
        (self : SSLCheckerService)
        (der : bytes) (d : string) (w w' : World) (c : SSLCertificate) :
  _parse_certificate self der d w = (Returned c, w') ->
  (_generate_warnings c = [] <->
   Z.max 7 (warning_days self) < daysUntilExpiry c /\ 2048 <= keySize c).
Proof.
  intros H. evaluated H.
  set (t := fst (datetime_now w)). set (na := not_valid_after_utc x).
  pose proof (timedelta_days_nonneg (na - t)) as Hsign.
  unfold _generate_warnings, Py.append.
  cbn [isExpired daysUntilExpiry isExpiringSoon keySize].
  set (days := timedelta_days (na - t)) in *.
  rewrite Z.gtb_ltb.
  destruct (Z.ltb_spec na t) as [Hexp|Hlive];
    [|destruct (Z.leb_spec days 7) as [Hweek|Hweek];
      [|destruct (Z.ltb_spec 0 days) as [Hpos|Hpos];
        destruct (Z.leb_spec days (warning_days self)) as [Hwin|Hwin]]];
    destruct (Z.ltb_spec key 2048) as [Hkey'|Hkey'];
    cbn [andb app];
    (split; [intros Hnil; try discriminate Hnil; lia
            |intros [Hdays Hbits]; try reflexivity; exfalso; lia]).
Qed.

(** X2: the subject alternative names kept are exactly the DNS names of
    the extension, in the order of the extension; entries of other
    kinds are dropped, and without the extension the list is empty. *)
Theorem san_list_is_dns_names
        (self : SSLCheckerService)
        (der : bytes) (d : string) (w w' : World)
        (x : X509) (c : SSLCertificate) :
  load_der_x509_certificate der = Returned x ->
  _parse_certificate self der d w = (Returned c, w') ->
  map DNSName (sanList c) =
    filter is_DNSName
      (match subject_alternative_name x with Some ext => ext | None => [] end)
  /\ (forall v, In v (sanList c) <->
                exists ext, subject_alternative_name x = Some ext /\
                            In (DNSName v) ext).
Proof.
  intros Hx H. evaluated H.
  rewrite Hx in Hload. injection Hload as <-.
  assert (Hfilter : forall ext, map DNSName (dns_values ext) = filter is_DNSName ext).
  { induction ext as [|[v|v] ext IH]; cbn; [reflexivity| |exact IH].
    rewrite IH. reflexivity. }
  assert (Hin : forall ext v, In v (dns_values ext) <-> In (DNSName v) ext).
  { induction ext as [|[u|u] ext IH]; intros v; cbn.
    - tauto.
    - rewrite IH. split; intros [Hu|Hu]; auto; left; congruence.
    - rewrite IH. split; [auto|]. intros [Hu|Hu]; [discriminate|exact Hu]. }
  destruct (subject_alternative_name x) as [ext|].
  - split; [apply Hfilter|]. intros v. rewrite Hin. split.
    + intros Hv. exists ext. auto.
    + intros (ext' & Heq & Hv). injection Heq as <-. exact Hv.
  - split; [reflexivity|]. intros v. cbn. split; [tauto|].
    intros (ext' & Heq & _). discriminate.
Qed.


(** X4: a check whose fetch and parse succeed on a certificate that is
    already past its notAfter is still a successful check: success is
    true and the certificate is returned, with isValid false, and the
    first warning is the expired text citing at least one day. *)
Theorem expired_certificate_is_successful_check
        (self : SSLCheckerService) (d : string) (port : Z)
        (w w1 w2 : World) (der : bytes) (c : SSLCertificate) :
  _get_certificate self d port w = (Returned der, w1) ->
  _parse_certificate self der d w1 = (Returned c, w2) ->
  notAfter c < fst (datetime_now w1) ->
  exists r w',
    check_certificate self d port w = (Returned r, w') /\
    success r = true /\ certificate r = Some c /\ error r = None /\
    isValid c = false /\
    1 <= Z.abs (daysUntilExpiry c) /\
    hd_error (warnings r) =
      Some ("⚠️ Certificate EXPIRED "
            ++ Py.str_of_int (Z.abs (daysUntilExpiry c)) ++ " days ago").
Proof.
  intros Hfetch Hparse Hpast.
  destruct (check_certificate_returns self d port w) as (r & w' & Hrun & _ & Hout).
  unfold check_outcome in Hout. rewrite Hfetch, Hparse in Hout.
  destruct Hout as (Hs & Hc & He & Hw).
  exists r, w'. repeat (split; [assumption|]).
  rewrite Hw. clear Hrun Hs Hc He Hw Hfetch.
  evaluated Hparse.
  set (t := fst (datetime_now w1)) in *. set (na := not_valid_after_utc x) in *.
  assert (Hexp : (t >? na) = true) by (rewrite Z.gtb_ltb; apply Z.ltb_lt; exact Hpast).
  pose proof (timedelta_days_nonneg (na - t)) as Hsign.
  split; [rewrite Hexp; reflexivity|]. split; [lia|].
  unfold _generate_warnings, Py.append. cbn [isExpired daysUntilExpiry keySize].
  rewrite Hexp. destruct (key <? 2048); reflexivity.
Qed.

End EvaluatorMore.

(** X5: [_generate_warnings] returns at most two warnings: at most one
    expiry warning, followed by at most one weak-key warning. *)
Theorem generate_warnings_shape (cert : SSLCertificate) :
  exists expiry weak,
    _generate_warnings cert = (expiry ++ weak)%list /\
    (List.length expiry <= 1)%nat /\
    Forall (fun s => is_expiry_warning s = true) expiry /\
    (weak = [] \/ weak = ["⚠️ Weak key size (< 2048 bits)"]) /\
    (List.length (_generate_warnings cert) <= 2)%nat.
Proof.
  unfold _generate_warnings, Py.append.
  set (gone := Py.str_of_int (Z.abs _)).
  set (left_ := Py.str_of_int _).
  assert (Hexpired :
    is_expiry_warning ("⚠️ Certificate EXPIRED " ++ gone ++ " days ago") = true).
  { unfold is_expiry_warning. rewrite prefix_append. reflexivity. }
  assert (Hcritical :
    is_expiry_warning
      ("🚨 Certificate expires in " ++ left_ ++ " days (CRITICAL)") = true).
  { unfold is_expiry_warning.
    rewrite (prefix_append "🚨 Certificate expires in ").
    rewrite orb_true_r. reflexivity. }
  assert (Hsoon :
    is_expiry_warning ("⚠️ Certificate expires in " ++ left_ ++ " days") = true).
  { unfold is_expiry_warning.
    rewrite (prefix_append "⚠️ Certificate expires in ").
    apply orb_true_r. }
  exists (if isExpired cert then
            ["⚠️ Certificate EXPIRED " ++ gone ++ " days ago"]
          else if daysUntilExpiry cert <=? 7 then
            ["🚨 Certificate expires in " ++ left_ ++ " days (CRITICAL)"]
          else if isExpiringSoon cert then
            ["⚠️ Certificate expires in " ++ left_ ++ " days"]
          else []),
         (if keySize cert <? 2048 then [WEAK_KEY_WARNING] else []).
  destruct (isExpired cert);
    [|destruct (daysUntilExpiry cert <=? 7);
      [|destruct (isExpiringSoon cert)]];
    destruct (keySize cert <? 2048);
    cbn [List.length app];
    (split; [reflexivity|]);
    (split; [lia|split; [repeat constructor; assumption|split; [auto|lia]]]).
Qed.

(** ** The agent's tool functions *)

Section AgentMore.
Context {rt : Runtime}.

Lemma evaluated_valid_iff_days (self : SSLCheckerService)
      (der : bytes) (d : string) (w w' : World) (c : SSLCertificate) :
  _parse_certificate self der d w = (Returned c, w') ->
  isValid c = negb (daysUntilExpiry c <? 0).
Proof.
  intros H. apply parse_certificate_inv in H.
  destruct H as (x & key & _ & _ & _ & H). cbv zeta in H. subst c.
  cbn [isValid daysUntilExpiry]. f_equal.
  set (t := fst (datetime_now w)). set (na := not_valid_after_utc x).
  pose proof (timedelta_days_nonneg (na - t)) as Hsign.
  rewrite Z.gtb_ltb.
  destruct (Z.ltb_spec na t), (Z.ltb_spec (timedelta_days (na - t)) 0);
    try reflexivity; exfalso; lia.
Qed.

(** What the service's check hands to the agent, by the outcome of its
    two stages. *)
Lemma check_result_by_stages (d : string) (w : World) :
  exists r,
    check_certificate ssl_checker d 443 w = (Returned r, world_after_check d w) /\
    match stages d w with
    | Raised e =>
        success r = false /\ error r = Some (failure_text e)
    | Returned c =>
        success r = true /\ certificate r = Some c /\
        isValid c = negb (daysUntilExpiry c <? 0)
    end.
Proof.
  destruct (check_certificate_returns ssl_checker d 443 w)
    as (r & w' & Hrun & _ & Hout).
  exists r. unfold world_after_check. rewrite Hrun. split; [reflexivity|].
  unfold check_outcome in Hout. unfold stages.
  destruct (_get_certificate ssl_checker d 443 w) as [[der|e] w1].
  - destruct (_parse_certificate ssl_checker der d w1) as [[c|e] w2] eqn:Hparse;
      cbn [fst].
    + destruct Hout as (Hs & Hc & _). repeat split; try assumption.
      exact (evaluated_valid_iff_days _ _ _ _ _ _ Hparse).
    + destruct Hout as (Hs & _ & He & _). auto.
  - destruct Hout as (Hs & _ & He & _). auto.
Qed.

Lemma check_ssl_certificate_cases (d : string) (w : World) :
  _execute_function (call_check_ssl_certificate d) w =
  (Returned match stages d w with
            | Raised e => single_failure d (failure_text e)
            | Returned c => single_success d c
            end,
   world_after_check d w).
Proof.
  destruct (check_result_by_stages d w) as (r & Hrun & Hout).
  cbn [_execute_function]. unfold check_ssl_certificate, bind.
  rewrite Hrun.
  destruct (stages d w) as [c|e].
  - destruct Hout as (Hs & Hc & _). rewrite Hs, Hc. reflexivity.
  - destruct Hout as (Hs & He). rewrite Hs, He. reflexivity.
Qed.


Lemma for_domain_in_summaries (domains : list string) :
  forall (results : list DomainSummary) (w : World),
    for_domain_in domains results w =
    (Returned (results ++ summaries_from domains w)%list,
     world_after_batch domains w).
Proof.
  induction domains as [|d rest IH]; intros results w.
  - cbn. rewrite app_nil_r. reflexivity.
  - destruct (check_result_by_stages d w) as (r & Hrun & Hout).
    cbn [for_domain_in summaries_from world_after_batch].
    unfold bind at 1. rewrite Hrun. unfold bind at 1.
    assert (Hsum : summarize d r results (world_after_check d w) =
                   (Returned (Py.append results (summary_for d (stages d w))),
                    world_after_check d w)).
    { unfold summarize. destruct (stages d w) as [c|e]; cbn [summary_for].
      - destruct Hout as (Hs & Hc & Hv). rewrite Hs, Hc, Hv.
        destruct (daysUntilExpiry c <? 0); reflexivity.
      - destruct Hout as (Hs & He). rewrite Hs, He. reflexivity. }
    rewrite Hsum, IH. unfold Py.append. rewrite <- app_assoc. reflexivity.
Qed.

Lemma batch_summaries_by_outcome_eq (domains : list string) (w : World) :
  _execute_function (call_check_multiple_domains (Some domains)) w =
  (Returned
     (BatchResult true (Py.len domains) (summaries_from domains w)
        ("Checked " ++ Py.str_of_int (Py.len domains) ++ " domain(s)")),
   world_after_batch domains w).
Proof.
  cbn [_execute_function]. unfold check_multiple_domains, bind.
  rewrite for_domain_in_summaries. reflexivity.
Qed.

(** X7: the batch tool returns, for every list of domains, success true
    and one summary per domain, each determined by the outcome of that
    domain's own check in the world the previous check left: the error
    label and text when a stage raised, else the invalid label when the
    days until expiry are negative and the valid label otherwise.  The
    batch reports success true however many of the checks failed. *)
Theorem batch_summaries_by_outcome (domains : list string) (w : World) :
  _execute_function (call_check_multiple_domains (Some domains)) w =
  (Returned
     (BatchResult true (Py.len domains) (summaries_from domains w)
        ("Checked " ++ Py.str_of_int (Py.len domains) ++ " domain(s)")),
   world_after_batch domains w).
Proof.
  exact (batch_summaries_by_outcome_eq domains w).
Qed.

Lemma summaries_from_app (ds1 ds2 : list string) (w : World) :
  summaries_from (ds1 ++ ds2) w =
  (summaries_from ds1 w ++ summaries_from ds2 (world_after_batch ds1 w))%list.
Proof.
  revert w. induction ds1 as [|d rest IH]; intros w; cbn; [reflexivity|].
  rewrite IH. reflexivity.
Qed.

Lemma world_after_batch_app (ds1 ds2 : list string) (w : World) :
  world_after_batch (ds1 ++ ds2) w =
  world_after_batch ds2 (world_after_batch ds1 w).
Proof.
  revert w. induction ds1 as [|d rest IH]; intros w; cbn; [reflexivity|].
  apply IH.
Qed.

(** X8: one batch over [ds1 ++ ds2] records what a batch over [ds1]
    records, followed by what a batch over [ds2] run next records, and
    leaves the same world: splitting a list of domains over two calls
    changes neither the summaries nor their order. *)
Theorem batch_split (ds1 ds2 : list string) (w : World) :
  exists n1 rs1 m1 w1 n2 rs2 m2 w2 m,
    _execute_function (call_check_multiple_domains (Some ds1)) w =
      (Returned (BatchResult true n1 rs1 m1), w1) /\
    _execute_function (call_check_multiple_domains (Some ds2)) w1 =
      (Returned (BatchResult true n2 rs2 m2), w2) /\
    _execute_function (call_check_multiple_domains (Some (ds1 ++ ds2)%list)) w =
      (Returned (BatchResult true (n1 + n2) (rs1 ++ rs2)%list m), w2).
Proof.
  do 9 eexists.
  rewrite !batch_summaries_by_outcome_eq.
  split; [reflexivity|]. split; [reflexivity|].
  rewrite summaries_from_app, world_after_batch_app.
  unfold Py.len. rewrite length_app, Nat2Z.inj_add. reflexivity.
Qed.



End AgentMore.

(** ** Error codes *)

(** X10: no two members of [A2AErrorCode] share a value, so the code of
    an error response tells which member it was created with; every
    value lies in the range JSON-RPC reserves, and the application's
    own members lie between -32099 and -32000. *)
Theorem error_codes_distinct_and_reserved
        (i i' : option string) (c c' : ErrorModels.A2AErrorCode)
        (m m' : string) (d d' : option ErrorModels.Data) :
  (ErrorModels.code (ErrorModels.error (ErrorModels.create_error_response i c m d)) =
   ErrorModels.code (ErrorModels.error (ErrorModels.create_error_response i' c' m' d'))
   <-> c = c') /\
  -32768 <= ErrorModels.value c <= -32000 /\
  (-32099 <= ErrorModels.value c <->
   In c [ ErrorModels.SSL_CONNECTION_ERROR; ErrorModels.SSL_CERTIFICATE_ERROR;
          ErrorModels.DOMAIN_NOT_FOUND; ErrorModels.TIMEOUT_ERROR;
          ErrorModels.INVALID_DOMAIN ]).
Proof.
  cbn [ErrorModels.create_error_response ErrorModels.error ErrorModels.code].
  split; [split|split].
  - destruct c, c'; cbn; intros H; try reflexivity; discriminate H.
  - intros ->. reflexivity.
  - destruct c; cbn; lia.
  - destruct c; cbn; split; intros H; try lia; intuition discriminate.
Qed.

(** ** [process_message] *)

Section ProcessMore.
Context {rt : Runtime} {pf : Platform}.
Variable self : SSLAgent.

Lemma for_msg_in_history (hist : list JSON) :
  forall (contents : list GenAI.ContentDict) (w : World),
    for_msg_in hist contents w =
    (match history_contents hist with
     | Returned more => Returned (contents ++ more)%list
     | Raised e => Raised e
     end, w).
Proof.
  induction hist as [|msg rest IH]; intros contents w.
  - cbn. rewrite app_nil_r. reflexivity.
  - destruct msg; try reflexivity.
    cbn [for_msg_in history_contents get].
    unfold bind, lift. rewrite IH.
    destruct (history_contents rest) as [more|e]; [|reflexivity].
    unfold Py.append. rewrite <- app_assoc. reflexivity.
Qed.

Lemma text_or_nonempty (x : GenAI.GenerateContentResponse Usage)
      (default : string) :
  default <> "" -> text_or x default <> "".
Proof.
  intros Hd. unfold text_or.
  destruct (GenAI.text x) as [t|]; [|exact Hd].
  destruct (String.eqb_spec t ""); assumption.
Qed.

(** What the loop over the parts leaves: the artifacts of the calls
    among the parts, appended in order, and a bound, non-empty
    [final_text] once a part was visited. *)
Lemma for_part_in_returned (contents : list GenAI.ContentDict)
      (response : GenAI.GenerateContentResponse Usage)
      (parts : list GenAI.Part) :
  forall (artifacts : list ArtifactData) (final_text : option string)
         (w w' : World) (artifacts' : list ArtifactData)
         (final_text' : option string),
    for_part_in self contents response parts artifacts final_text w =
      (Returned (artifacts', final_text'), w') ->
    (exists out,
        artifacts' = (artifacts ++ out)%list /\
        Forall2 artifact_for (calls_of parts) out) /\
    (parts = [] -> final_text' = final_text) /\
    (parts <> [] -> exists t, final_text' = Some t /\ t <> "").
Proof.
  induction parts as [|part rest IH];
    intros artifacts final_text w w' artifacts' final_text' Hrun.
  - cbn in Hrun. injection Hrun as <- <- <-.
    split; [exists []; rewrite app_nil_r; split; [reflexivity|constructor]|].
    split; [reflexivity|]. intros Hne. congruence.
  - cbn [for_part_in calls_of] in *.
    assert (Hlast : forall t0 arts0 v,
               t0 <> "" ->
               for_part_in self contents response rest arts0 (Some t0) v =
                 (Returned (artifacts', final_text'), w') ->
               exists t, final_text' = Some t /\ t <> "").
    { intros t0 arts0 v Hne Hrest.
      destruct (IH _ _ _ _ _ _ Hrest) as (_ & Hnil & Hcons).
      destruct rest as [|p ps].
      - exists t0. split; [apply Hnil; reflexivity|exact Hne].
      - apply Hcons. discriminate. }
    destruct (GenAI.function_call part) as [c|].
    + unfold bind at 1 in Hrun.
      destruct (_execute_function c w) as [[res|e] w1] eqn:Hexec;
        [|discriminate].
      unfold bind at 1 in Hrun.
      destruct (generate_content _ _ false w1) as [[final|e] w2]; [|discriminate].
      pose proof (text_or_nonempty final "SSL check completed.") as Hne.
      split; [|split; [discriminate|]].
      * destruct (IH _ _ _ _ _ _ Hrun) as ((out & Harts & Hall) & _).
        exists ({| dict_name := function_name_of c; dict_data := res |} :: out).
        split.
        -- rewrite Harts. unfold Py.append. rewrite <- app_assoc. reflexivity.
        -- constructor; [|exact Hall]. split; [reflexivity|].
           exists w, w1. exact Hexec.
      * intros _. eapply Hlast; [|exact Hrun]. apply Hne. discriminate.
    + pose proof (text_or_nonempty response
                    "I've processed your SSL certificate request.") as Hne.
      split; [|split; [discriminate|]].
      * destruct (IH _ _ _ _ _ _ Hrun) as (Hout & _). exact Hout.
      * intros _. eapply Hlast; [|exact Hrun]. apply Hne. discriminate.
Qed.

Lemma for_part_in_no_calls (contents : list GenAI.ContentDict)
      (response : GenAI.GenerateContentResponse Usage)
      (parts : list GenAI.Part) :
  calls_of parts = [] ->
  forall (artifacts : list ArtifactData) (final_text : option string) (w : World),
    for_part_in self contents response parts artifacts final_text w =
    (Returned
       (artifacts,
        match parts with
        | [] => final_text
        | _ :: _ =>
            Some (text_or response "I've processed your SSL certificate request.")
        end), w).
Proof.
  induction parts as [|part rest IH]; intros Hcalls artifacts final_text w.
  - reflexivity.
  - cbn [for_part_in calls_of] in *.
    destruct (GenAI.function_call part) as [c|]; [discriminate|].
    rewrite (IH Hcalls). destruct rest; reflexivity.
Qed.


(** [process_message], read as one case analysis. *)
Lemma process_message_cases (user_message : string) (hist : list JSON)
      (w : World) :
  process_message self user_message (Some hist) w =
  match history_contents hist with
  | Raised e => (Returned (process_failure e), w)
  | Returned more =>
      let contents := first_contents self user_message more in
      match generate_content (model_name self) contents true w with
      | (Raised e, w1) => (Returned (process_failure e), w1)
      | (Returned response, w1) =>
          match first_parts response with
          | None =>
              (Returned (process_failure (NoneType_attribute_error "parts")), w1)
          | Some [] =>
              (Returned
                 (Processed true
                    (text_or response
                       "I've processed your SSL certificate request.")
                    [] (GenAI.usage_metadata response)), w1)
          | Some (part :: rest) =>
              match for_part_in self contents response (part :: rest) [] None w1
              with
              | (Raised e, w2) => (Returned (process_failure e), w2)
              | (Returned (artifacts, Some final_text), w2) =>
                  (Returned
                     (Processed true final_text artifacts
                        (GenAI.usage_metadata response)), w2)
              | (Returned (artifacts, None), w2) =>
                  (Returned (process_failure (UnboundLocalError "final_text")),
                   w2)
              end
          end
      end
  end.
Proof.
  unfold process_message, try_except.
  unfold bind at 1.
  assert (Hhist :
    match hist with
    | msg :: rest =>
        for_msg_in (msg :: rest)
          (Py.append []
             (GenAI.TextContent (JStr "user")
                (JStr ("System: " ++ system_prompt self))))
    | [] =>
        ret (Py.append []
               (GenAI.TextContent (JStr "user")
                  (JStr ("System: " ++ system_prompt self))))
    end w =
    (match history_contents hist with
     | Returned more =>
         Returned (GenAI.TextContent (JStr "user")
                     (JStr ("System: " ++ system_prompt self)) :: more)
     | Raised e => Raised e
     end, w)).
  { destruct hist as [|msg rest]; [reflexivity|].
    rewrite for_msg_in_history. reflexivity. }
  rewrite Hhist. clear Hhist.
  destruct (history_contents hist) as [more|e]; [|reflexivity].
  cbv zeta. unfold first_contents, Py.append. cbn [app].
  unfold bind at 1.
  destruct (generate_content (model_name self) _ true w)
    as [[response|e] w1]; [|reflexivity].
  unfold first_parts.
  destruct (GenAI.candidates response) as [|candidate others]; [reflexivity|].
  destruct (GenAI.content candidate) as [content|]; [|reflexivity].
  destruct (GenAI.parts content) as [[|part rest]|]; try reflexivity.
  unfold bind.
  destruct (for_part_in self _ response (part :: rest) [] None w1)
    as [[[artifacts [final_text|]]|e] w2]; reflexivity.
Qed.

Lemma process_message_returns (user_message : string) (hist : list JSON)
      (w : World) :
  exists res w',
    process_message self user_message (Some hist) w = (Returned res, w').
Proof.
  rewrite process_message_cases.
  destruct (history_contents hist) as [more|e];
    [|eexists; eexists; reflexivity].
  cbv zeta.
  destruct (generate_content _ _ true w) as [[response|e] w1];
    [|eexists; eexists; reflexivity].
  destruct (first_parts response) as [[|part rest]|];
    try (eexists; eexists; reflexivity).
  destruct (for_part_in self _ response (part :: rest) [] None w1)
    as [[[artifacts [final_text|]]|e] w2]; eexists; eexists; reflexivity.
Qed.

(** X11: [process_message] raises nothing.  A history item that is not
    a dictionary makes it return the failure dictionary with the text
    of the attribute error, before the model is called and with the
    world untouched; an exception of the first model call, and a first
    candidate without content, make it return the failure dictionary
    with that exception's text. *)
Theorem process_message_failures (user_message : string) (hist : list JSON)
        (w : World) :
  let run := process_message self user_message (Some hist) w in
  (exists res w', run = (Returned res, w')) /\
  match history_contents hist with
  | Raised e => run = (Returned (process_failure e), w)
  | Returned more =>
      match generate_content (model_name self)
              (first_contents self user_message more) true w with
      | (Raised e, w1) => run = (Returned (process_failure e), w1)
      | (Returned response, w1) =>
          match first_parts response with
          | None =>
              run = (Returned
                       (process_failure (NoneType_attribute_error "parts")), w1)
          | Some _ => True
          end
      end
  end.
Proof.
  cbv zeta. split; [apply process_message_returns|].
  rewrite process_message_cases.
  destruct (history_contents hist) as [more|e]; [|reflexivity].
  cbv zeta.
  destruct (generate_content _ _ true w) as [[response|e] w1]; [|reflexivity].
  destruct (first_parts response); [exact I|reflexivity].
Qed.

(** X12: when the model's answer holds no function call (no candidate,
    no parts, or text parts only), [process_message] performs no
    certificate check: it returns success with no artifact and the
    answer's text, or the fixed fallback text when that is empty, in
    the world the one model call left. *)
Theorem process_message_without_calls (user_message : string)
        (hist : list JSON) (w w1 : World)
        (more : list GenAI.ContentDict)
        (response : GenAI.GenerateContentResponse Usage)
        (parts : list GenAI.Part) :
  history_contents hist = Returned more ->
  generate_content (model_name self)
    (first_contents self user_message more) true w = (Returned response, w1) ->
  first_parts response = Some parts ->
  calls_of parts = [] ->
  process_message self user_message (Some hist) w =
  (Returned
     (Processed true
        (text_or response "I've processed your SSL certificate request.")
        [] (GenAI.usage_metadata response)), w1).
Proof.
  intros Hhist Hfirst Hparts Hcalls.
  rewrite process_message_cases, Hhist. cbv zeta. rewrite Hfirst, Hparts.
  destruct parts as [|part rest]; [reflexivity|].
  rewrite (for_part_in_no_calls _ _ _ Hcalls). reflexivity.
Qed.

(** X13: when [process_message] returns its success dictionary, the
    history was well formed and the first model call answered; success
    is true, the response text is not empty, the usage is that of the
    first answer, and the artifacts are, in order, one per function
    call of the first candidate's parts, each with the call's name and
    the dictionary [_execute_function] returned for it. *)
Theorem process_message_artifacts (user_message : string) (hist : list JSON)
        (w w' : World) (s : bool) (t : string)
        (artifacts : list ArtifactData) (u : Usage) :
  process_message self user_message (Some hist) w =
    (Returned (Processed s t artifacts u), w') ->
  exists more response w1 parts,
    history_contents hist = Returned more /\
    generate_content (model_name self)
      (first_contents self user_message more) true w = (Returned response, w1) /\
    first_parts response = Some parts /\
    s = true /\ t <> "" /\ u = GenAI.usage_metadata response /\
    Forall2 artifact_for (calls_of parts) artifacts.
Proof.
  rewrite process_message_cases.
  destruct (history_contents hist) as [more|e]; [|discriminate].
  cbv zeta.
  destruct (generate_content _ _ true w) as [[response|e] w1] eqn:Hfirst;
    [|discriminate].
  destruct (first_parts response) as [[|part rest]|] eqn:Hparts;
    [| |discriminate].
  - intros H. injection H as <- <- <- <- <-.
    exists more, response, w1, [].
    split; [reflexivity|]. split; [exact Hfirst|]. split; [exact Hparts|].
    split; [reflexivity|].
    split; [apply text_or_nonempty; discriminate|].
    split; [reflexivity|constructor].
  - destruct (for_part_in self _ response (part :: rest) [] None w1)
      as [[[arts [final_text|]]|e] w2] eqn:Hloop; try discriminate.
    intros H. injection H as <- <- <- <- <-.
    destruct (for_part_in_returned _ _ _ _ _ _ _ _ _ Hloop)
      as ((out & Harts & Hall) & _ & Htext).
    destruct Htext as (t' & Ht & Hne); [discriminate|].
    injection Ht as <-. cbn [app] in Harts. subst out.
    exists more, response, w1, (part :: rest).
    split; [reflexivity|]. split; [exact Hfirst|]. split; [exact Hparts|].
    split; [reflexivity|].
    split; [exact Hne|]. split; [reflexivity|exact Hall].
Qed.


End ProcessMore.

(** ** The route *)

Section RouteMore.
Context {rt : Runtime} {pf : Platform}.
Variable ssl_agent : SSLAgent.

Lemma for_artifact_data_in_returns (artifacts_data : list ArtifactData) :
  forall (artifacts : list A2A.Artifact) (w : World),
  exists out w',
    for_artifact_data_in artifacts_data artifacts w =
      (Returned (artifacts ++ out)%list, w') /\
    Forall2 artifact_of artifacts_data out.
Proof.
  induction artifacts_data as [|a rest IH]; intros artifacts w.
  - exists [], w. cbn. rewrite app_nil_r. split; [reflexivity|constructor].
  - cbn [for_artifact_data_in]. unfold bind at 1.
    unfold new_Artifact at 1, bind at 1, new_uuid at 1, ret at 1.
    destruct (uuid4 w) as [u w1].
    destruct (IH (Py.append artifacts
                    {| A2A.artifactId := "artifact-" ++ u;
                       A2A.name := dict_name a;
                       A2A.artifact_parts :=
                         [ A2A.TextPart
                             (summary_text_of (dict_name a) (dict_data a));
                           A2A.DataPart (dict_data a) ] |}) w1)
      as (out & w' & Hrun & Hall).
    eexists (_ :: out), w'. split.
    + rewrite Hrun. unfold Py.append. rewrite <- app_assoc. reflexivity.
    + constructor; [|exact Hall]. split; reflexivity.
Qed.

Lemma route_no_text (request : A2A.JSONRPCRequest) (w : World) :
  first_text request = None ->
  handle_ssl_a2a_request ssl_agent request w =
  (Returned (no_text_response request), w).
Proof.
  unfold first_text, handle_ssl_a2a_request, try_except. cbv zeta.
  intros Hnone.
  assert (Htext :
    match A2A.parts (A2A.params_message request) with
    | [] => ""
    | A2A.TextPart text :: _ => text
    | A2A.DataPart _ :: _ => ""
    | A2A.FilePart _ _ :: _ => ""
    end = "").
  { destruct (A2A.parts (A2A.params_message request)) as [|[text|d|f m] ps];
      try reflexivity.
    destruct (String.eqb_spec text ""); [assumption|discriminate]. }
  unfold bind at 1. rewrite Htext. cbn. reflexivity.
Qed.

Lemma route_with_text (request : A2A.JSONRPCRequest) (w : World) (t : string) :
  first_text request = Some t ->
  let w1 := snd (uuid4 w) in
  let fresh := String.eqb (A2A.request_id request) "" in
  let task_id :=
    if fresh then "task-" ++ fst (uuid4 w1) else A2A.request_id request in
  let w2 := if fresh then snd (uuid4 w1) else w1 in
  exists res w3 tr w',
    process_message ssl_agent t (Some (second_history request)) w2 =
      (Returned res, w3) /\
    handle_ssl_a2a_request ssl_agent request w =
      (Returned {| A2A.jsonrpc := "2.0";
                   A2A.response_id := A2A.request_id request;
                   A2A.result := Some tr;
                   A2A.error := None |}, w') /\
    task_result_for task_id ("ctx-" ++ fst (uuid4 w)) res tr.
Proof.
  unfold first_text. intros Hsome. cbv zeta.
  assert (Htext :
    match A2A.parts (A2A.params_message request) with
    | [] => ""
    | A2A.TextPart text :: _ => text
    | A2A.DataPart _ :: _ => ""
    | A2A.FilePart _ _ :: _ => ""
    end = t /\ String.eqb t "" = false).
  { destruct (A2A.parts (A2A.params_message request)) as [|[text|d|f m] ps];
      try discriminate.
    destruct (String.eqb text "") eqn:Hne; [discriminate|].
    injection Hsome as <-. auto. }
  destruct Htext as [Htext Hne].
  unfold handle_ssl_a2a_request, try_except. cbv zeta.
  unfold bind at 1. rewrite Htext, Hne. unfold ret at 1.
  unfold bind at 1. unfold new_uuid at 1.
  destruct (uuid4 w) as [u1 w1]. cbn [fst snd].
  unfold bind at 1.
  set (w2 := if String.eqb (A2A.request_id request) ""
             then snd (uuid4 w1) else w1).
  set (task_id := if String.eqb (A2A.request_id request) ""
                  then "task-" ++ fst (uuid4 w1) else A2A.request_id request).
  assert (Htask :
    (if String.eqb (A2A.request_id request) ""
     then (u <- new_uuid ;; ret ("task-" ++ u))
     else ret (A2A.request_id request)) w1 = (Returned task_id, w2)).
  { subst w2 task_id. destruct (String.eqb (A2A.request_id request) "");
      [|reflexivity].
    unfold bind, new_uuid, ret. destruct (uuid4 w1); reflexivity. }
  rewrite Htask. clear Htask.
  unfold bind at 1. fold (second_history request).
  destruct (process_message_returns ssl_agent t (second_history request) w2)
    as (res & w3 & Hpm).
  rewrite Hpm.
  unfold bind at 1.
  unfold new_A2AMessage at 1, bind at 1, new_uuid at 1, ret at 1.
  destruct (uuid4 w3) as [u3 w4].
  unfold bind at 1.
  set (response_message :=
         {| A2A.role := "agent";
            A2A.parts := [A2A.TextPart (result_response res)];
            A2A.messageId := "msg-" ++ u3;
            A2A.taskId := Some task_id |}).
  assert (Harts : exists arts w5,
    match result_artifacts res with
    | Some (artifact_data :: rest) =>
        for_artifact_data_in (artifact_data :: rest) []
    | _ => ret []
    end w4 = (Returned arts, w5) /\
    Forall2 artifact_of
      (match result_artifacts res with Some l => l | None => [] end) arts).
  { destruct (result_artifacts res) as [[|a rest]|].
    - exists [], w4. split; [reflexivity|constructor].
    - destruct (for_artifact_data_in_returns (a :: rest) [] w4)
        as (out & w5 & Hrun & Hall).
      exists out, w5. split; [exact Hrun|exact Hall].
    - exists [], w4. split; [reflexivity|constructor]. }
  destruct Harts as (arts & w5 & Harts & Hall).
  rewrite Harts.
  unfold bind at 1.
  unfold new_TaskStatus at 1, bind at 1, now at 1, ret at 1.
  destruct (datetime_now w5) as [stamp w6].
  unfold ret.
  exists res, w3. eexists. exists w6.
  split; [reflexivity|]. split; [reflexivity|].
  unfold task_result_for. cbn. repeat split; try reflexivity. exact Hall.
Qed.

(** X15: a request whose first part is not a text part with a non-empty
    text (no parts, a data or file part first, or an empty text) is
    answered by a JSON-RPC error response and not by an HTTP error: code
    -32603, the text of the 400 exception after "Internal error: ", the
    request's id or "error" when that is empty, and no result.  Neither
    the agent nor an identifier or clock is used: the world is
    untouched. *)
Theorem route_without_text_is_internal_error
        (request : A2A.JSONRPCRequest) (w : World) :
  first_text request = None ->
  handle_ssl_a2a_request ssl_agent request w =
  (Returned (no_text_response request), w).
Proof.
  exact (route_no_text request w).
Qed.

(** X16: a request whose first part is a non-empty text is answered by
    a result and no error, with the request's id.  The text and the
    array of the second part (empty when the second part is not a data
    part holding an array) go to [process_message]; the task id is the
    request's id, or a fresh "task-" identifier when that is empty; the
    state is "completed" iff the agent reported success and "failed"
    otherwise; the status message is the agent's response as one text
    part of role "agent"; the history is that one message; and there is
    one artifact per artifact dictionary of the agent, in order, each a
    text part with its markdown followed by a data part with the
    dictionary itself. *)
Theorem route_with_text_is_task_result
        (request : A2A.JSONRPCRequest) (w : World) (t : string) :
  first_text request = Some t ->
  let w1 := snd (uuid4 w) in
  let fresh := String.eqb (A2A.request_id request) "" in
  let task_id :=
    if fresh then "task-" ++ fst (uuid4 w1) else A2A.request_id request in
  let w2 := if fresh then snd (uuid4 w1) else w1 in
  exists res w3 tr w',
    process_message ssl_agent t (Some (second_history request)) w2 =
      (Returned res, w3) /\
    handle_ssl_a2a_request ssl_agent request w =
      (Returned {| A2A.jsonrpc := "2.0";
                   A2A.response_id := A2A.request_id request;
                   A2A.result := Some tr;
                   A2A.error := None |}, w') /\
    task_result_for task_id ("ctx-" ++ fst (uuid4 w)) res tr.
Proof.
  exact (route_with_text request w t).
Qed.

(** X17: the route raises nothing, and its response carries an error
    exactly when the request has no text, and a result exactly when it
    has: a failure of the agent (the model raising, a malformed
    history) is reported inside a result with state "failed", never as
    a JSON-RPC error. *)
Theorem route_error_iff_no_text (request : A2A.JSONRPCRequest) (w : World) :
  exists resp w',
    handle_ssl_a2a_request ssl_agent request w = (Returned resp, w') /\
    A2A.jsonrpc resp = "2.0" /\
    (A2A.error resp <> None <-> first_text request = None) /\
    (A2A.result resp <> None <-> first_text request <> None).
Proof.
  destruct (first_text request) as [t|] eqn:Htext.
  - destruct (route_with_text request w t Htext) as (res & w3 & tr & w' & _ & Hrun & _).
    eexists; eexists. split; [exact Hrun|]. cbn.
    split; [reflexivity|]. split; split; intros H; congruence.
  - eexists; eexists. split; [exact (route_no_text request w Htext)|]. cbn.
    split; [reflexivity|]. split; split; intros H; congruence.
Qed.

End RouteMore.

(** ** The markdown of the artifacts *)

Lemma for_domain_result_in_lines (results : list DomainSummary) :
  forall summary_text : string,
    for_domain_result_in results summary_text =
    summary_text ++ String.concat "" (map summary_line results).
Proof.
  assert (Hassoc : forall a b c : string, (a ++ b) ++ c = a ++ (b ++ c)).
  { induction a as [|x a IH]; intros b c; cbn; [reflexivity|].
    rewrite IH. reflexivity. }
  assert (Hnil : forall a : string, a ++ "" = a).
  { induction a as [|x a IH]; cbn; [reflexivity|]. rewrite IH. reflexivity. }
  assert (Hconcat : forall (x : string) (xs : list string),
             String.concat "" (x :: xs) = x ++ String.concat "" xs).
  { intros x [|y ys]; cbn; [rewrite Hnil; reflexivity|reflexivity]. }
  induction results as [|s rest IH]; intros summary_text.
  - cbn. rewrite Hnil. reflexivity.
  - cbn [for_domain_result_in map]. rewrite IH, Hconcat.
    unfold summary_line.
    destruct (ResultDict.get_days_remaining s);
      rewrite ?Hassoc; cbn [append]; rewrite ?Hassoc; reflexivity.
Qed.

(** X18: the markdown of a batch artifact is its header, with the total
    the dictionary carries, followed by exactly one line per summary,
    in order; a line shows the days in parentheses iff the summary is
    that of a checked domain and not of an error. *)
Theorem batch_markdown_lines (s : bool) (n : Z) (rs : list DomainSummary)
        (m : string) :
  summary_text_of "check_multiple_domains" (BatchResult s n rs m) =
  ("# Multiple Domain SSL Check" ++ NL ++ NL ++
   "**Total Domains:** " ++ Py.str_of_int n ++ NL ++ NL ++
   "## Results" ++ NL)
  ++ String.concat "" (map summary_line rs).
Proof.
  unfold summary_text_of. cbn [String.eqb Ascii.eqb Bool.eqb].
  unfold batch_summary_text. cbn [ResultDict.get_total_domains ResultDict.get_results].
  cbv zeta. apply for_domain_result_in_lines.
Qed.

(** X19: the markdown of a single-domain artifact names the domain and
    shows the status "Valid" whenever the check produced a certificate,
    expired or not, and "Invalid" only when a stage of the check
    raised: the status follows the success of the check and not the
    validity of the certificate. *)
Theorem single_markdown_status {rt : Runtime} (d : string) (w : World) :
  exists res w' rest,
    _execute_function (call_check_ssl_certificate d) w = (Returned res, w') /\
    summary_text_of "check_ssl_certificate" res =
    "# SSL Certificate Check" ++ NL ++ NL ++
    "**Domain:** " ++ d ++ NL ++
    "**Status:** "
      ++ match stages d w with
         | Returned _ => "✅ Valid"
         | Raised _ => "❌ Invalid"
         end ++ NL ++ rest.
Proof.
  rewrite check_ssl_certificate_cases.
  destruct (stages d w) as [c|e]; do 3 eexists; (split; [reflexivity|]);
    cbn; reflexivity.
Qed.

(** ** The further theorems at work on the test doubles *)

(** Evaluate a run on a test double and name what it returned. *)
Ltac exists_returned e a w :=
  let v := eval vm_compute in e in
  lazymatch v with
  | (Returned ?x, ?y) => pose (a := x); pose (w := y); exists a, w
  end.

Ltac by_evaluation := vm_compute; reflexivity.

(** X1 on a certificate with 60 days left and a 2048-bit key. *)
Lemma no_warnings_iff_witness :
  exists c w',
    sample_parse "b.com" = (Returned c, w') /\
    (_generate_warnings c = [] <->
     Z.max 7 (warning_days default_service) < daysUntilExpiry c /\
     2048 <= keySize c) /\
    _generate_warnings c = [].
Proof.
  exists_returned (sample_parse "b.com") a w.
  assert (Hparse : sample_parse "b.com" = (Returned a, w)) by by_evaluation.
  split; [exact Hparse|]. split; [|reflexivity].
  exact (no_warnings_iff (rt:=sample_runtime) default_service
           (sample_der "b.com") "b.com" t0 _ _ Hparse).
Defined.

(** X2 on an extension with two DNS names around an IP address. *)
Lemma san_list_is_dns_names_witness :
  exists c w' x,
    sample_parse "b.com" = (Returned c, w') /\
    load_der_x509_certificate (Runtime:=sample_runtime) (sample_der "b.com")
      = Returned x /\
    map DNSName (sanList c) =
      filter is_DNSName
        (match subject_alternative_name x with Some ext => ext | None => [] end) /\
    sanList c = ["b.com"; "www.b.com"].
Proof.
  exists_returned (sample_parse "b.com") a w.
  exists (sample_x509 (t0 + 60 * MICROSECONDS_PER_DAY) 2048).
  assert (Hparse : sample_parse "b.com" = (Returned a, w)) by by_evaluation.
  assert (Hload :
    load_der_x509_certificate (Runtime:=sample_runtime) (sample_der "b.com")
    = Returned (sample_x509 (t0 + 60 * MICROSECONDS_PER_DAY) 2048))
    by by_evaluation.
  split; [exact Hparse|]. split; [exact Hload|]. split; [|reflexivity].
  exact (proj1 (san_list_is_dns_names (rt:=sample_runtime) default_service
                  (sample_der "b.com") "b.com" t0 _ _ _ Hload Hparse)).
Defined.

(** X4 on a host whose certificate expired an hour before the check. *)
Lemma expired_certificate_is_successful_check_witness :
  exists c w2,
    _get_certificate (rt:=sample_runtime) default_service
      "expired.example" 443 t0 = (Returned (sample_der "expired.example"), t0) /\
    _parse_certificate (rt:=sample_runtime) default_service
      (sample_der "expired.example") "expired.example" t0 = (Returned c, w2) /\
    notAfter c < fst (datetime_now (Runtime:=sample_runtime) t0) /\
    exists r w',
      check_certificate (rt:=sample_runtime) default_service
        "expired.example" 443 t0 = (Returned r, w') /\
      success r = true /\ certificate r = Some c /\ error r = None /\
      isValid c = false /\
      1 <= Z.abs (daysUntilExpiry c) /\
      hd_error (warnings r) =
        Some ("⚠️ Certificate EXPIRED "
              ++ Py.str_of_int (Z.abs (daysUntilExpiry c)) ++ " days ago").
Proof.
  exists_returned (sample_parse "expired.example") a w.
  assert (Hfetch :
    _get_certificate (rt:=sample_runtime) default_service
      "expired.example" 443 t0 = (Returned (sample_der "expired.example"), t0))
    by by_evaluation.
  assert (Hparse :
    _parse_certificate (rt:=sample_runtime) default_service
      (sample_der "expired.example") "expired.example" t0 = (Returned a, w))
    by by_evaluation.
  assert (Hpast : notAfter a < fst (datetime_now (Runtime:=sample_runtime) t0))
    by by_evaluation.
  split; [exact Hfetch|]. split; [exact Hparse|]. split; [exact Hpast|].
  exact (expired_certificate_is_successful_check (rt:=sample_runtime)
           default_service "expired.example" 443 t0 t0 w
           (sample_der "expired.example") a Hfetch Hparse Hpast).
Defined.

(** X12 on a greeting, which the model answers with text only. *)
Lemma process_message_without_calls_witness :
  exists response w1,
    history_contents [] = Returned [] /\
    generate_content (Platform:=sample_platform) (model_name sample_agent)
      (first_contents sample_agent "hello" []) true t0
      = (Returned response, w1) /\
    first_parts response = Some [] /\
    calls_of [] = [] /\
    process_message (pf:=sample_platform) sample_agent "hello" (Some []) t0 =
    (Returned
       (Processed true
          (text_or response "I've processed your SSL certificate request.")
          [] (GenAI.usage_metadata response)), w1) /\
    text_or response "I've processed your SSL certificate request."
      = "Which domain shall I check?".
Proof.
  exists_returned
    (generate_content (Platform:=sample_platform) (model_name sample_agent)
       (first_contents sample_agent "hello" []) true t0) a w.
  assert (Hfirst :
    generate_content (Platform:=sample_platform) (model_name sample_agent)
      (first_contents sample_agent "hello" []) true t0 = (Returned a, w))
    by by_evaluation.
  assert (Hparts : first_parts a = Some []) by by_evaluation.
  split; [reflexivity|]. split; [exact Hfirst|]. split; [exact Hparts|].
  split; [reflexivity|]. split; [|by_evaluation].
  exact (process_message_without_calls (pf:=sample_platform) sample_agent
           "hello" [] t0 w [] a [] eq_refl Hfirst Hparts eq_refl).
Defined.

(** X13 on a request for two domains, which the model answers with one
    batch call. *)
Lemma process_message_artifacts_witness :
  exists res w',
    process_message (pf:=sample_platform) sample_agent
      "check a.com and b.com" (Some []) t0 = (Returned res, w') /\
    exists t artifacts u parts,
      res = Processed true t artifacts u /\ t <> "" /\
      map dict_name artifacts = ["check_multiple_domains"] /\
      Forall2 (artifact_for (rt:=sample_runtime)) (calls_of parts) artifacts.
Proof.
  exists_returned
    (process_message (pf:=sample_platform) sample_agent
       "check a.com and b.com" (Some []) t0) a w.
  assert (Hrun :
    process_message (pf:=sample_platform) sample_agent
      "check a.com and b.com" (Some []) t0 = (Returned a, w)) by by_evaluation.
  split; [exact Hrun|].
  lazymatch eval cbv delta [a] in a with
  | Processed ?s ?t ?arts ?u =>
      destruct (process_message_artifacts (pf:=sample_platform) sample_agent
                  "check a.com and b.com" [] t0 w s t arts u Hrun)
        as (more & response & w1 & parts & _ & _ & _ & _ & Ht & _ & Hall);
      exists t, arts, u, parts
  end.
  split; [reflexivity|]. split; [exact Ht|]. split; [reflexivity|exact Hall].
Defined.


(** X15 on a request whose only part is a file, with an empty id. *)
Lemma route_without_text_is_internal_error_witness :
  first_text (sample_request "" [A2A.FilePart "https://example.com/a.pem" None])
    = None /\
  handle_ssl_a2a_request (pf:=sample_platform) sample_agent
    (sample_request "" [A2A.FilePart "https://example.com/a.pem" None]) t0 =
  (Returned
     (no_text_response (pf:=sample_platform)
        (sample_request "" [A2A.FilePart "https://example.com/a.pem" None])),
   t0) /\
  no_text_response (pf:=sample_platform)
    (sample_request "" [A2A.FilePart "https://example.com/a.pem" None]) =
  {| A2A.jsonrpc := "2.0";
     A2A.response_id := "error";
     A2A.result := None;
     A2A.error :=
       Some {| A2A.code := -32603;
               A2A.error_message :=
                 "Internal error: 400: No text found in message parts" |} |}.
Proof.
  split; [reflexivity|]. split; [|by_evaluation].
  exact (route_without_text_is_internal_error (pf:=sample_platform)
           sample_agent
           (sample_request "" [A2A.FilePart "https://example.com/a.pem" None])
           t0 eq_refl).
Defined.

(** X16 on a request the model cannot serve: the response is a result
    in state "failed". *)
Lemma route_with_text_is_task_result_witness :
  first_text (sample_request "req-7" [A2A.TextPart "overload"])
    = Some "overload" /\
  exists res w3 tr w',
    process_message (pf:=sample_platform) sample_agent "overload"
      (Some (second_history (sample_request "req-7" [A2A.TextPart "overload"])))
      (snd (uuid4 (Platform:=sample_platform) t0)) = (Returned res, w3) /\
    handle_ssl_a2a_request (pf:=sample_platform) sample_agent
      (sample_request "req-7" [A2A.TextPart "overload"]) t0 =
      (Returned {| A2A.jsonrpc := "2.0";
                   A2A.response_id := "req-7";
                   A2A.result := Some tr;
                   A2A.error := None |}, w') /\
    task_result_for (pf:=sample_platform) "req-7"
      ("ctx-" ++ fst (uuid4 (Platform:=sample_platform) t0)) res tr.
Proof.
  split; [reflexivity|].
  exact (route_with_text_is_task_result (pf:=sample_platform) sample_agent
           (sample_request "req-7" [A2A.TextPart "overload"]) t0
           "overload" eq_refl).
Defined.

(** A request the model cannot serve is answered in state "failed". *)
Example overloaded_model_is_failed_task :
  match fst (handle_ssl_a2a_request (pf:=sample_platform) sample_agent
               (sample_request "req-7" [A2A.TextPart "overload"]) t0) with
  | Returned resp =>
      match A2A.result resp with
      | Some tr =>
          A2A.state (A2A.status tr) = "failed" /\ A2A.artifacts tr = [] /\
          A2A.error resp = None
      | None => False
      end
  | Raised _ => False
  end.
Proof. vm_compute. repeat split. Qed.

(** A certificate whose key has no size makes the parse raise after the
    clock was read, and the check fail with the text of that exception. *)
Example key_without_size_fails_check :
  let hosts := fun _ : string =>
    Returned
      {| x509_issuer := []; x509_subject := [];
         not_valid_before_utc := t0; not_valid_after_utc := t0 + HOUR;
         public_key_size :=
           Raised (MkExn OtherException
                     "'Ed25519PublicKey' object has no attribute 'key_size'");
         subject_alternative_name := None;
         signature_algorithm_name := "ed25519";
         serial_number := 1 |} in
  let r := fst (check_certificate (rt:=stub_runtime hosts) default_service
                  "ed.example" 443 t0) in
  match r with
  | Returned r =>
      success r = false /\ certificate r = None /\
      error r =
        Some "Unexpected error: 'Ed25519PublicKey' object has no attribute 'key_size'"
  | Raised _ => False
  end.
Proof. vm_compute. repeat split. Qed.
